(** * Structured-query compiler, validator and result shaper

    A shallow embedding of the deterministic core of the data-analyst
    agent:

    - [agents/sql_agent.py]: [build_sql_from_structure], the validation
      part of [generate_structure_node], and [build_and_execute_node];
    - [tools/sql_executor.py]: [run_sql];
    - [tools/data_transformer.py]: [transform_sql_to_viz_data].

    Python dictionaries whose keys are fixed by a [TypedDict] are
    records, and the values under a key are those of its declared type
    ([Literal] types are enumerations).  Every key of [QueryStructure]
    may be missing from the dictionary or hold [None], because the
    source distinguishes the two ([d[k]], [d.get(k)],
    [d.get(k, default)], [k not in d]).  Raised exceptions are an
    explicit error result.  A string is its sequence of characters, a
    character outside ASCII being the bytes of its UTF-8 form.  The
    database is a parameter of the executor.  The workflow of the SQL
    agent ([generate_and_execute_sql]) and [supervisor]
    ([agents/supervisor.py]) are modelled over their collaborators:
    the language model, [json.loads], the schema inspector and the
    visualization path are parameters.  The [print] calls are outside
    the model. *)

From Stdlib Require Import String Ascii List ZArith Lia Bool.
From Stdlib Require Import DecimalString DecimalNat.
Import ListNotations.
Open Scope string_scope.

(** ** A fragment of the Python runtime *)

Module Py.

(** Exception classes that the modelled code can raise. *)
Inductive exn_class : Type :=
| KeyError
| TypeError
| IndexError
| ValueError
| Exception.

(** An exception: its class and the text that [str(e)] yields. *)
Record exn : Type := Exn { exn_cls : exn_class; exn_str : string }.

(** What running a piece of code gives: a value or a raised
    exception. *)
Inductive outcome (A : Type) : Type :=
| Ok (a : A)
| Raise (e : exn).
Arguments Ok {A} a.
Arguments Raise {A} e.

Definition bind {A B : Type} (m : outcome A) (k : A -> outcome B) : outcome B :=
  match m with
  | Ok a => k a
  | Raise e => Raise e
  end.

(** What a dictionary holds under one key: nothing, [None], or a value
    of the declared type. *)
Inductive entry (A : Type) : Type :=
| Absent
| Null
| Val (a : A).
Arguments Absent {A}.
Arguments Null {A}.
Arguments Val {A} a.

(** The characters [double quote], [single quote] and [newline]. *)
Definition dq : string := String (ascii_of_nat 34) EmptyString.
Definition sq : string := String (ascii_of_nat 39) EmptyString.
Definition nl : string := String (ascii_of_nat 10) EmptyString.

(** [d[k]]: raises [KeyError] when the key is missing; the value may
    be [None]. *)
Definition getitem {A : Type} (k : string) (e : entry A) : outcome (option A) :=
  match e with
  | Absent => Raise (Exn KeyError (sq ++ k ++ sq))
  | Null => Ok None
  | Val a => Ok (Some a)
  end.

(** [d.get(k)]: [None] when the key is missing. *)
Definition get {A : Type} (e : entry A) : option A :=
  match e with
  | Val a => Some a
  | _ => None
  end.

(** [d.get(k, default)]: the default only replaces a missing key, a
    stored [None] is returned as it is. *)
Definition get_default {A : Type} (e : entry A) (default : A) : option A :=
  match e with
  | Absent => Some default
  | Null => None
  | Val a => Some a
  end.

(** [k in d]. *)
Definition has_key {A : Type} (e : entry A) : bool :=
  match e with
  | Absent => false
  | _ => true
  end.

(** [c in s] for a one-character string [c]. *)
Fixpoint str_contains (c : ascii) (s : string) : bool :=
  match s with
  | EmptyString => false
  | String a s' => Ascii.eqb c a || str_contains c s'
  end.

(** [x in l] for a list of strings. *)
Definition str_in (x : string) (l : list string) : bool :=
  existsb (String.eqb x) l.

(** [sep.join(l)]. *)
Definition join (sep : string) (l : list string) : string :=
  String.concat sep l.

(** [str(n)] for an [int]. *)
Definition str_of_int (n : Z) : string :=
  NilZero.string_of_int (Z.to_int n).

(** [str(n)] for a non-negative index. *)
Definition str_of_nat (n : nat) : string :=
  NilZero.string_of_uint (Nat.to_uint n).

(** How an f-string renders a value that may be [None]. *)
Definition format {A : Type} (show : A -> string) (v : option A) : string :=
  match v with
  | None => "None"
  | Some a => show a
  end.

(** [for x in l: body(x)], stopping at the first exception. *)
Fixpoint for_each {A : Type} (body : A -> outcome unit) (l : list A) : outcome unit :=
  match l with
  | [] => Ok tt
  | x :: l' => bind (body x) (fun _ => for_each body l')
  end.

End Py.

Import Py.

Notation "x <- m ;; k" := (bind m (fun x => k))
  (at level 61, m at next level, right associativity).

(** ** The structured query format ([agents/sql_agent.py]) *)

(** [Literal["=", ">", "<", ">=", "<=", "LIKE", "!="]] *)
Inductive Operator : Type :=
| OpEq | OpGt | OpLt | OpGe | OpLe | OpLike | OpNe.

Definition Operator_str (o : Operator) : string :=
  match o with
  | OpEq => "="
  | OpGt => ">"
  | OpLt => "<"
  | OpGe => ">="
  | OpLe => "<="
  | OpLike => "LIKE"
  | OpNe => "!="
  end.

(** [class WhereClause(TypedDict)] *)
Record WhereClause : Type := mkWhere {
  column : string;
  operator : Operator;
  value : string
}.

(** [Literal["SELECT", "COUNT"]] *)
Inductive Operation : Type := SELECT | COUNT.

(** [Literal["ASC", "DESC"]] *)
Inductive Direction : Type := ASC | DESC.

Definition Direction_str (d : Direction) : string :=
  match d with
  | ASC => "ASC"
  | DESC => "DESC"
  end.

(** [class QueryStructure(TypedDict)]: the dictionary parsed from the
    proposer's JSON, and the same dictionary after validation. *)
Record QueryStructure : Type := mkStructure {
  operation : entry Operation;
  table : entry string;
  columns : entry (list string);
  where_ : entry (list WhereClause);
  order_by : entry string;
  order_direction : entry Direction;
  limit : entry Z
}.

(** Assignments [structure[k] = v]. *)
Definition set_operation (s : QueryStructure) (v : entry Operation) : QueryStructure :=
  mkStructure v (table s) (columns s) (where_ s) (order_by s) (order_direction s) (limit s).
Definition set_table (s : QueryStructure) (v : entry string) : QueryStructure :=
  mkStructure (operation s) v (columns s) (where_ s) (order_by s) (order_direction s) (limit s).
Definition set_columns (s : QueryStructure) (v : entry (list string)) : QueryStructure :=
  mkStructure (operation s) (table s) v (where_ s) (order_by s) (order_direction s) (limit s).
Definition set_where (s : QueryStructure) (v : entry (list WhereClause)) : QueryStructure :=
  mkStructure (operation s) (table s) (columns s) v (order_by s) (order_direction s) (limit s).
Definition set_order_by (s : QueryStructure) (v : entry string) : QueryStructure :=
  mkStructure (operation s) (table s) (columns s) (where_ s) v (order_direction s) (limit s).
Definition set_order_direction (s : QueryStructure) (v : entry Direction) : QueryStructure :=
  mkStructure (operation s) (table s) (columns s) (where_ s) (order_by s) v (limit s).
Definition set_limit (s : QueryStructure) (v : entry Z) : QueryStructure :=
  mkStructure (operation s) (table s) (columns s) (where_ s) (order_by s) (order_direction s) v.

(** ** The SQL builder *)

(** [structure["operation"] == "COUNT"] *)
Definition is_count (op : option Operation) : bool :=
  match op with
  | Some COUNT => true
  | _ => false
  end.

(** [f'"{col}"' if ' ' in col else col] *)
Definition quote_if_space (col : string) : string :=
  if str_contains " " col then dq ++ col ++ dq else col.

(** One iteration of the loop over [structure["where"]]. *)
Definition where_part (clause : WhereClause) : string :=
  let col := quote_if_space (column clause) in
  let op := Operator_str (operator clause) in
  let val := sq ++ value clause ++ sq in
  col ++ " " ++ op ++ " " ++ val.

(** [build_sql_from_structure(structure)] *)
Definition build_sql_from_structure (structure : QueryStructure) : outcome string :=
  (* Start building query *)
  (* if structure["operation"] == "COUNT": *)
  op <- getitem "operation" (operation structure) ;;
  sql <- (if is_count op then Ok "SELECT COUNT(*)"
          else
            (* Quote columns with spaces *)
            cols <- getitem "columns" (columns structure) ;;
            match cols with
            | None => Raise (Exn TypeError "'NoneType' object is not iterable")
            | Some cols =>
                let columns := map quote_if_space cols in
                match columns with
                | _ :: _ => Ok ("SELECT " ++ join ", " columns)
                | [] => Ok "SELECT *"
                end
            end) ;;
  (* Add table *)
  tbl <- getitem "table" (table structure) ;;
  let sql := sql ++ " FROM " ++ format (fun t => t) tbl in
  (* Add WHERE clauses *)
  (* if structure.get("where"): a non-empty list is true *)
  let sql :=
    match get (where_ structure) with
    | Some ((_ :: _) as clauses) =>
        sql ++ " WHERE " ++ join " AND " (map where_part clauses)
    | _ => sql
    end in
  (* Add ORDER BY *)
  (* if structure.get("order_by"): a non-empty string is true *)
  let sql :=
    match get (order_by structure) with
    | Some ((String _ _) as col) =>
        let col := quote_if_space col in
        (* direction = structure.get("order_direction", "ASC") *)
        let direction := get_default (order_direction structure) ASC in
        sql ++ " ORDER BY " ++ col ++ " " ++ format Direction_str direction
    | _ => sql
    end in
  (* Add LIMIT (but NOT for COUNT queries) *)
  (* if structure.get("limit") and structure["operation"] != "COUNT":
     a non-zero integer is true *)
  let sql :=
    match get (limit structure) with
    | Some n =>
        if negb (Z.eqb n 0) && negb (is_count op)
        then sql ++ " LIMIT " ++ str_of_int n
        else sql
    | None => sql
    end in
  Ok sql.

(** ** Validation of the proposed structure

    The part of [generate_structure_node] that follows [json.loads]:
    [structure] is the parsed reply, [selected_table] and
    [available_columns] are [state["selected_table"]] and
    [state["columns"]].  The node returns the structure under
    [query_structure]; its chat message is not part of the model. *)

Definition column_not_found (col place : string) (available_columns : list string) : exn :=
  Exn ValueError
    ("❌ Column " ++ sq ++ col ++ sq ++ " not found in " ++ place ++ "." ++ nl ++
     "Available columns: " ++ join ", " available_columns).

(** [if k not in structure: structure[k] = default] *)
Definition setdefault {A : Type} (e : entry A) (default : entry A) : entry A :=
  if has_key e then e else default.

Definition generate_structure_node
    (selected_table : string) (available_columns : list string)
    (structure : QueryStructure) : outcome QueryStructure :=
  (* VALIDATION: Force correct table name *)
  let structure := set_table structure (Val selected_table) in
  (* Validate selected columns *)
  (* if structure.get("columns"): for col in structure["columns"]: *)
  _ <- match get (columns structure) with
       | Some ((_ :: _) as cols) =>
           for_each (fun col =>
             if negb (str_in col available_columns)
             then Raise (column_not_found col "table" available_columns)
             else Ok tt) cols
       | _ => Ok tt
       end ;;
  (* Validate WHERE clause columns *)
  (* if structure.get("where"): for clause in structure["where"]: *)
  _ <- match get (where_ structure) with
       | Some ((_ :: _) as clauses) =>
           for_each (fun clause =>
             if negb (str_in (column clause) available_columns)
             then Raise (column_not_found (column clause) "WHERE clause" available_columns)
             else Ok tt) clauses
       | _ => Ok tt
       end ;;
  (* Validate ORDER BY column *)
  (* if structure.get("order_by"): *)
  _ <- match get (order_by structure) with
       | Some ((String _ _) as col) =>
           if negb (str_in col available_columns)
           then Raise (column_not_found col "ORDER BY" available_columns)
           else Ok tt
       | _ => Ok tt
       end ;;
  (* Set defaults *)
  let structure := set_operation structure (setdefault (operation structure) (Val SELECT)) in
  let structure := set_columns structure (setdefault (columns structure) (Val [])) in
  let structure := set_where structure (setdefault (where_ structure) Null) in
  let structure := set_order_by structure (setdefault (order_by structure) Null) in
  let structure := set_order_direction structure (setdefault (order_direction structure) Null) in
  let structure := set_limit structure (setdefault (limit structure) Null) in
  Ok structure.

(** ** Values handed over by the executor

    [run_sql] and [transform_sql_to_viz_data] are typed [Any]: the
    values below are [None], integers, strings, the error dictionary,
    and lists or tuples whose elements are row tuples or bare
    scalars. *)

Inductive scalar : Type :=
| SNone
| SInt (n : Z)
| SStr (s : string).

Inductive item : Type :=
| Tuple (t : list scalar)
| Plain (v : scalar).

Inductive pyvalue : Type :=
| PNone
| PInt (n : Z)
| PStr (s : string)
| PDict (d : list (string * scalar))
| PList (l : list item)
| PTuple (l : list item).

(** [bool(v)] *)
Definition truthy (v : pyvalue) : bool :=
  match v with
  | PNone => false
  | PInt n => negb (Z.eqb n 0)
  | PStr s => negb (String.eqb s "")
  | PDict d => negb (Nat.eqb (length d) 0)
  | PList l => negb (Nat.eqb (length l) 0)
  | PTuple l => negb (Nat.eqb (length l) 0)
  end.

(** ** The executor ([tools/sql_executor.py]) and the node that calls it *)

(** The partial state a node returns. *)
Record SQLAgentState : Type := mkState {
  messages : list string;
  sql_query : string;
  result : pyvalue
}.

Section Executor.

(** [db.run], the database behind the executor. *)
Variable db_run : string -> outcome pyvalue.

(** [run_sql(query)] *)
Definition run_sql (query : string) : outcome pyvalue :=
  match db_run query with
  | Ok result =>
      if negb (truthy result) then Ok (PStr "Query returned no results.")
      else Ok result
  | Raise e => Raise (Exn Exception ("SQL execution error: " ++ exn_str e))
  end.

(** [build_and_execute_node(state)], with [structure] standing for
    [state["query_structure"]]; the [print] calls are left out. *)
Definition build_and_execute_node (structure : QueryStructure) : outcome SQLAgentState :=
  (* Build SQL (deterministic, no LLM) *)
  sql <- build_sql_from_structure structure ;;
  (* Execute SQL immediately *)
  match run_sql sql with
  | Ok result =>
      Ok (mkState ["SQL executed successfully"] sql result)
  | Raise e =>
      let error_msg := "SQL execution failed: " ++ exn_str e in
      (* Return error in state *)
      Ok (mkState [error_msg] sql (PDict [("error", SStr (exn_str e))]))
  end.

End Executor.

(** ** The result shaper ([tools/data_transformer.py]) *)

Definition scalar_eq_dec (a b : scalar) : {a = b} + {a <> b}.
Proof.
  decide equality; [apply Z.eq_dec | apply string_dec].
Defined.

(** A list comprehension whose element expression may raise. *)
Fixpoint comprehension {A B : Type} (f : A -> outcome B) (l : list A) : outcome (list B) :=
  match l with
  | [] => Ok []
  | x :: l' => y <- f x ;; ys <- comprehension f l' ;; Ok (y :: ys)
  end.

(** [list(v)]; a string gives its characters as the model has them,
    so one element per byte for text outside ASCII, where Python gives
    one per character. *)
Definition to_list (v : pyvalue) : outcome (list item) :=
  match v with
  | PList l => Ok l
  | PTuple l => Ok l
  | PStr s => Ok (map (fun c => Plain (SStr (String c EmptyString))) (list_ascii_of_string s))
  | PDict d => Ok (map (fun kv => Plain (SStr (fst kv))) d)
  | PNone => Raise (Exn TypeError "'NoneType' object is not iterable")
  | PInt _ => Raise (Exn TypeError "'int' object is not iterable")
  end.

(** [it[i]]; on a string outside ASCII the element is a byte of the
    character that Python would give. *)
Definition item_at (it : item) (i : nat) : outcome scalar :=
  match it with
  | Tuple t =>
      match nth_error t i with
      | Some v => Ok v
      | None => Raise (Exn IndexError "tuple index out of range")
      end
  | Plain (SStr s) =>
      match String.get i s with
      | Some c => Ok (SStr (String c EmptyString))
      | None => Raise (Exn IndexError "string index out of range")
      end
  | Plain (SInt _) => Raise (Exn TypeError "'int' object is not subscriptable")
  | Plain SNone => Raise (Exn TypeError "'NoneType' object is not subscriptable")
  end.

(** [collections.Counter]: a dictionary in insertion order.
    [counter_add elem c] is [c[elem] = c.get(elem, 0) + 1]. *)
Fixpoint counter_add (elem : scalar) (c : list (scalar * nat)) : list (scalar * nat) :=
  match c with
  | [] => [(elem, 1)]
  | (k, n) :: c' =>
      if scalar_eq_dec k elem then (k, S n) :: c'
      else (k, n) :: counter_add elem c'
  end.

Definition Counter (values : list scalar) : list (scalar * nat) :=
  fold_left (fun c elem => counter_add elem c) values [].

(** What the shaper returns: [[]], the dictionary it was given, one of
    its three dictionaries, or [None] when no [return] is reached. *)
Inductive viz_data : Type :=
| EmptyList
| SameDict (d : list (string * scalar))
| Categorical (categories : list scalar) (counts : list nat) (total : nat)
              (raw_values : list scalar)
| Numeric (values : list scalar) (total : nat)
| RowTable (rows : list (list (string * scalar))) (columns : list string)
           (total_rows : nat)
| ReturnsNone.

(** [transform_sql_to_viz_data(sql_result, query)] *)
Definition transform_sql_to_viz_data (sql_result : pyvalue) (query : string) : outcome viz_data :=
  (* If empty or None, return empty list *)
  if negb (truthy sql_result) then Ok EmptyList
  else
    match sql_result with
    (* If already a dict or simple list, return as-is *)
    | PDict d => Ok (SameDict d)
    | _ =>
        (* Convert to list if not already *)
        sql_result <- to_list sql_result ;;
        (* Check if it's a list of tuples: isinstance(sql_result[0], tuple) *)
        match sql_result with
        | [] => Raise (Exn IndexError "list index out of range")
        | Tuple first :: _ =>
            (* if len(sql_result[0]) == 1: *)
            if Nat.eqb (length first) 1 then
              (* CASE 1: Single column data *)
              values <- comprehension (fun it => item_at it 0) sql_result ;;
              (* if isinstance(values[0], str): *)
              match values with
              | [] => Raise (Exn IndexError "list index out of range")
              | SStr _ :: _ =>
                  let counts := Counter values in
                  Ok (Categorical (map fst counts) (map snd counts) (length values) values)
              | _ :: _ => Ok (Numeric values (length values))
              end
            else
              (* CASE 2: Multiple columns *)
              let num_cols := length first in
              let column_names := map (fun i => "col_" ++ str_of_nat i) (seq 0 num_cols) in
              rows <- comprehension (fun row =>
                        comprehension (fun i =>
                          v <- item_at row i ;; Ok (nth i column_names "", v))
                          (seq 0 num_cols)) sql_result ;;
              Ok (RowTable rows column_names (length rows))
        (* no branch is left: the function ends without a return *)
        | Plain _ :: _ => Ok ReturnsNone
        end
    end.

(** ** The workflow of the SQL agent and the supervisor

    The nodes that [build_graph] chains, [generate_and_execute_sql]
    ([agents/sql_agent.py]) and [supervisor] ([agents/supervisor.py]).
    What they call outside the modelled code is a parameter: the schema
    inspector and the database, the two prompts of the language model,
    [json.loads], the formatter, the code generator and the plot
    executor of the visualization path, and the string methods [strip]
    and [lower] of the runtime. *)

(** What [json.loads] gives for a reply: the structure, or the text of
    a [JSONDecodeError]. *)
Inductive loaded : Type :=
| Loaded (structure : QueryStructure)
| JSONDecodeError (msg : string).

Record Collaborators (figure : Type) : Type := mkCollaborators {
  (* tools.schema_inspector *)
  get_tables : outcome (list string);
  get_table_columns : string -> outcome (list string);
  (* llm.invoke on table_selection_prompt: user_query, tables *)
  llm_select_table : string -> string -> outcome string;
  (* llm.invoke on structure_prompt: user_query, table, columns *)
  llm_structure : string -> string -> string -> outcome string;
  json_loads : string -> loaded;
  (* db.run *)
  db : string -> outcome pyvalue;
  (* tools.data_transformer.format_data_for_llm *)
  format_data_for_llm : viz_data -> outcome string;
  (* agents.viz_agent.generate_viz_code: query, data, data_description *)
  generate_viz_code : string -> viz_data -> string -> outcome string;
  (* tools.python_executor.run_plot_code: code, data *)
  run_plot_code : string -> viz_data -> outcome figure;
  (* str.strip and str.lower *)
  strip : string -> string;
  lower : string -> string
}.

Arguments get_tables {figure} c.
Arguments get_table_columns {figure} c _.
Arguments llm_select_table {figure} c _ _.
Arguments llm_structure {figure} c _ _ _.
Arguments json_loads {figure} c _.
Arguments db {figure} c _.
Arguments format_data_for_llm {figure} c _.
Arguments generate_viz_code {figure} c _ _ _.
Arguments run_plot_code {figure} c _ _.
Arguments strip {figure} c _.
Arguments lower {figure} c _.

(** [w in s] for strings. *)
Fixpoint occurs (w s : string) : bool :=
  prefix w s ||
  match s with
  | EmptyString => false
  | String _ s' => occurs w s'
  end.

(** [s.replace(old, new)] for a non-empty [old]: the occurrences are
    replaced from the left and do not overlap; [skip] counts the
    characters of an occurrence that are still to be passed over. *)
Fixpoint replace_from (old new : string) (skip : nat) (s : string) : string :=
  match s with
  | EmptyString => EmptyString
  | String c s' =>
      match skip with
      | S k => replace_from old new k s'
      | O =>
          if prefix old s
          then new ++ replace_from old new (String.length old - 1) s'
          else String c (replace_from old new O s')
      end
  end.

Definition replace (old new s : string) : string := replace_from old new 0 s.

(** The dictionary that [generate_and_execute_sql] returns. *)
Record SqlResponse : Type := mkResponse {
  response_sql : string;
  response_result : pyvalue;
  response_structure : QueryStructure
}.

Section Workflow.

Variable figure : Type.
Variable c : Collaborators figure.

(** [fetch_tables_node]: the value of [tables]. *)
Definition fetch_tables_node : outcome (list string) := get_tables c.

(** [select_table_node]: the value of [selected_table]. *)
Definition select_table_node (user_query : string) (tables : list string)
  : outcome string :=
  response <- llm_select_table c user_query (join ", " tables) ;;
  Ok (strip c response).

(** [fetch_schema_node]: the value of [columns]. *)
Definition fetch_schema_node (selected_table : string) : outcome (list string) :=
  get_table_columns c selected_table.

(** The text that [generate_structure_node] hands to [json.loads]. *)
Definition clean_reply (content : string) : string :=
  (* Clean up response *)
  let json_str := strip c content in
  (* Remove markdown if present *)
  strip c (replace "```" "" (replace "```json" "" json_str)).

(** The whole of [generate_structure_node]: the reply of the model is
    cleaned of markdown fences and parsed, and the parsed structure is
    validated. *)
Definition generate_structure (user_query selected_table : string)
    (columns : list string) : outcome QueryStructure :=
  response <- llm_structure c user_query selected_table (join ", " columns) ;;
  let json_str := clean_reply response in
  (* Parse JSON *)
  match json_loads c json_str with
  | Loaded structure => generate_structure_node selected_table columns structure
  | JSONDecodeError e =>
      Raise (Exn ValueError
               ("Failed to parse JSON from LLM: " ++ json_str ++ nl ++
                "Error: " ++ e))
  end.

(** [sql_agent_graph.invoke] followed by the [return] of
    [generate_and_execute_sql]: the nodes run in the order of the
    edges, each on the state left by the ones before it. *)
Definition generate_and_execute_sql (user_query : string) : outcome SqlResponse :=
  tables <- fetch_tables_node ;;
  selected_table <- select_table_node user_query tables ;;
  columns <- fetch_schema_node selected_table ;;
  query_structure <- generate_structure user_query selected_table columns ;;
  final_state <- build_and_execute_node (db c) query_structure ;;
  Ok (mkResponse (sql_query final_state) (result final_state) query_structure).

(** The key words of the two routes. *)
Definition viz_keywords : list string :=
  ["plot"; "graph"; "visualize"; "chart"; "show me a graph of";
   "show me a plot of"; "create"].

Definition sql_keywords : list string :=
  ["count"; "list"; "show"; "fetch"; "oldest"; "youngest"; "how many"; "find";
   "get"; "select"; "display"; "who"; "what"; "which"; "all"; "total"; "first";
   "last"].

(** [any(word in uq for word in keywords)] *)
Definition any_in (keywords : list string) (uq : string) : bool :=
  existsb (fun word => occurs word uq) keywords.

(** [d.get(k)] on a dictionary of the result. *)
Fixpoint dict_get (k : string) (d : list (string * scalar)) : option scalar :=
  match d with
  | [] => None
  | (k', v) :: d' => if String.eqb k' k then Some v else dict_get k d'
  end.

(** The dictionaries that [supervisor] returns, by their [next_agent]. *)
Inductive Route : Type :=
| RouteViz (fig : figure) (code : string)
| RouteSql (sql : string) (rows : pyvalue) (structure : QueryStructure)
| RouteError (sql : option string) (error : scalar) (message : string)
| RouteEnd (text : string).

(** [supervisor(user_query)], the [print] calls left out. *)
Definition supervisor (user_query : string) : Route :=
  let uq := lower c user_query in
  (* check for visualization-type query *)
  if any_in viz_keywords uq then
    match
      (* Step 1: Get data from SQL agent *)
      sql_response <- generate_and_execute_sql user_query ;;
      (* Step 2: Transform data *)
      transformed_data <-
        transform_sql_to_viz_data (response_result sql_response) user_query ;;
      data_description <- format_data_for_llm c transformed_data ;;
      (* Step 3: Generate viz code *)
      viz_code <- generate_viz_code c user_query transformed_data data_description ;;
      (* Step 4: Execute visualization *)
      fig <- run_plot_code c viz_code transformed_data ;;
      Ok (RouteViz fig viz_code)
    with
    | Ok route => route
    | Raise e =>
        RouteError None (SStr (exn_str e)) "Failed to process visualization query"
    end
  (* Check if this is a SQL-type query *)
  else if any_in sql_keywords uq then
    match generate_and_execute_sql user_query with
    | Ok response =>
        (* Check if there was an error *)
        match response_result response with
        | PDict d =>
            match dict_get "error" d with
            | Some error =>
                RouteError (Some (response_sql response)) error "SQL execution failed"
            | None =>
                RouteSql (response_sql response) (response_result response)
                         (response_structure response)
            end
        | _ =>
            RouteSql (response_sql response) (response_result response)
                     (response_structure response)
        end
    | Raise e => RouteError None (SStr (exn_str e)) "Failed to process SQL query"
    end
  (* Default: Query not supported *)
  else
    RouteEnd "I can only handle data queries right now. Try asking me to count, list, or show data.".

End Workflow.

Arguments fetch_tables_node {figure} c.
Arguments select_table_node {figure} c _ _.
Arguments fetch_schema_node {figure} c _.
Arguments clean_reply {figure} c _.
Arguments generate_structure {figure} c _ _ _.
Arguments generate_and_execute_sql {figure} c _.
Arguments supervisor {figure} c _.
Arguments RouteViz {figure} fig code.
Arguments RouteSql {figure} sql rows structure.
Arguments RouteError {figure} sql error message.
Arguments RouteEnd {figure} text.

(** ** Sample collaborators

    The string methods on ASCII text, and a database, a schema and a
    language model that answer one question. *)

Definition ascii_space (a : ascii) : bool :=
  existsb (Nat.eqb (nat_of_ascii a)) [9; 10; 11; 12; 13; 28; 29; 30; 31; 32].

Fixpoint ascii_lstrip (s : string) : string :=
  match s with
  | EmptyString => EmptyString
  | String a s' => if ascii_space a then ascii_lstrip s' else s
  end.

Fixpoint ascii_rstrip (s : string) : string :=
  match s with
  | EmptyString => EmptyString
  | String a s' =>
      match ascii_rstrip s' with
      | EmptyString => if ascii_space a then EmptyString else String a EmptyString
      | r => String a r
      end
  end.

Definition ascii_strip (s : string) : string := ascii_rstrip (ascii_lstrip s).

Definition ascii_lower_char (a : ascii) : ascii :=
  let n := nat_of_ascii a in
  if Nat.leb 65 n && Nat.leb n 90 then ascii_of_nat (n + 32) else a.

Fixpoint ascii_lower (s : string) : string :=
  match s with
  | EmptyString => EmptyString
  | String a s' => String (ascii_lower_char a) (ascii_lower s')
  end.

(** * Vocabulary of the properties *)

(** ** The rendering rules of the compiler *)

(** [' ' in name]: the space character only. *)
Definition contains_space (s : string) : bool := str_contains " " s.



(** An identifier in delimited form when [needs_quotes] says so, bare
    otherwise. *)
Definition identifier (needs_quotes : string -> bool) (name : string) : string :=
  if needs_quotes name then dq ++ name ++ dq else name.

(** The rendering rules of the compiler's contract, in their fixed
    order, over an identifier rendering [ident]. *)
Definition projection_clause (ident : string -> string)
    (op : Operation) (cols : list string) : string :=
  match op, cols with
  | COUNT, _ => "SELECT COUNT(*)"
  | SELECT, [] => "SELECT *"
  | SELECT, _ => "SELECT " ++ join ", " (map ident cols)
  end.

Definition source_clause (t : string) : string := " FROM " ++ t.

Definition predicate (ident : string -> string) (p : WhereClause) : string :=
  ident (column p) ++ " " ++ Operator_str (operator p) ++ " " ++ sq ++ value p ++ sq.

Definition predicate_clause (ident : string -> string)
    (predicates : option (list WhereClause)) : string :=
  match predicates with
  | Some (p :: ps) => " WHERE " ++ join " AND " (map (predicate ident) (p :: ps))
  | _ => ""
  end.

Definition ordering_clause (ident : string -> string)
    (order : option string) (direction : string) : string :=
  match order with
  | Some (String a name) => " ORDER BY " ++ ident (String a name) ++ " " ++ direction
  | _ => ""
  end.

Definition limit_clause (op : Operation) (lim : option Z) : string :=
  match op, lim with
  | SELECT, Some n => if Z.eqb n 0 then "" else " LIMIT " ++ str_of_int n
  | _, _ => ""
  end.

Definition rendering (ident : string -> string)
    (op : Operation) (t : string) (cols : list string)
    (predicates : option (list WhereClause)) (order : option string)
    (direction : string) (lim : option Z) : string :=
  projection_clause ident op cols ++ source_clause t ++
  predicate_clause ident predicates ++ ordering_clause ident order direction ++
  limit_clause op lim.


(** ** The contract of the validator *)

(** The structure that validation returns when no check fails: the
    intent with [table] overwritten and the missing keys filled in. *)
Definition normalized (selected_table : string) (intent : QueryStructure) : QueryStructure :=
  mkStructure (setdefault (operation intent) (Val SELECT))
              (Val selected_table)
              (setdefault (columns intent) (Val []))
              (setdefault (where_ intent) Null)
              (setdefault (order_by intent) Null)
              (setdefault (order_direction intent) Null)
              (setdefault (limit intent) Null).

(** The three places in which an intent names a column. *)
Inductive context : Type := InSelect | InWhere | InOrderBy.

(** How the error message words each of them. *)
Definition place (ctx : context) : string :=
  match ctx with
  | InSelect => "table"
  | InWhere => "WHERE clause"
  | InOrderBy => "ORDER BY"
  end.

(** A name that the schema does not have. *)
Definition unknown (available_columns : list string) (name : string) : bool :=
  negb (str_in name available_columns).

(** The names an intent lists under [columns] and under [where]. *)
Definition names_in_columns (intent : QueryStructure) : list string :=
  match get (columns intent) with
  | Some cols => cols
  | None => []
  end.

Definition names_in_where (intent : QueryStructure) : list string :=
  match get (where_ intent) with
  | Some clauses => map column clauses
  | None => []
  end.

(** The name in [order_by], whatever string it is. *)
Definition name_in_order_by (intent : QueryStructure) : list string :=
  match get (order_by intent) with
  | Some col => [col]
  | None => []
  end.

(** The name in [order_by], the empty string counting as no name. *)
Definition nonempty_name_in_order_by (intent : QueryStructure) : list string :=
  match get (order_by intent) with
  | Some (String a col) => [String a col]
  | _ => []
  end.

(** The first out-of-schema name of an intent, scanning [columns], then
    [where], then [order_by], as the validator's contract lists them. *)
Definition first_violation
    (names_in_order_by : QueryStructure -> list string)
    (available_columns : list string) (intent : QueryStructure)
  : option (context * string) :=
  match find (unknown available_columns) (names_in_columns intent) with
  | Some name => Some (InSelect, name)
  | None =>
      match find (unknown available_columns) (names_in_where intent) with
      | Some name => Some (InWhere, name)
      | None =>
          match find (unknown available_columns) (names_in_order_by intent) with
          | Some name => Some (InOrderBy, name)
          | None => None
          end
      end
  end.

(** Validation fails on the first violation, with the error that names
    its place and the column, and otherwise returns the whole normalized
    structure. *)
Definition rejects_first_violation
    (names_in_order_by : QueryStructure -> list string)
    (selected_table : string) (available_columns : list string)
    (intent : QueryStructure) : Prop :=
  match first_violation names_in_order_by available_columns intent with
  | Some (ctx, name) =>
      generate_structure_node selected_table available_columns intent =
      Raise (column_not_found name (place ctx) available_columns)
  | None =>
      generate_structure_node selected_table available_columns intent =
      Ok (normalized selected_table intent)
  end.

(** ** Shaped results *)

(** The distinct values of a list in the order in which each appears
    for the first time. *)
Fixpoint first_appearance (values : list scalar) : list scalar :=
  match values with
  | [] => []
  | v :: rest => v :: remove scalar_eq_dec v (first_appearance rest)
  end.

(** [c[k]] for a [Counter]: zero for a key that was never counted. *)
Fixpoint counter_get (c : list (scalar * nat)) (k : scalar) : nat :=
  match c with
  | [] => 0
  | (k', n) :: c' => if scalar_eq_dec k' k then n else counter_get c' k
  end.

(** Whether [v] is among the keys [ks]. *)
Definition seen (ks : list scalar) (v : scalar) : bool :=
  if in_dec scalar_eq_dec v ks then true else false.

(** A result of one column: every row is a 1-tuple. *)
Definition single_column (values : list scalar) : list item :=
  map (fun v => Tuple [v]) values.

(** ** Inputs of the scenarios *)

(** The two scenarios of the specification. *)
Definition oldest_first_names : QueryStructure :=
  mkStructure (Val SELECT) (Val "people") (Val ["First Name"]) Absent
              (Val "Date of birth") (Val ASC) (Val 3%Z).

Definition count_males : QueryStructure :=
  mkStructure (Val COUNT) (Val "people") Absent
              (Val [mkWhere "Sex" OpEq "Male"]) Absent Absent Absent.

(** An intent that proposes the table [users] while [people] was
    resolved. *)
Definition intent_wrong_table : QueryStructure :=
  mkStructure (Val COUNT) (Val "users") (Val [])
              (Val [mkWhere "Sex" OpEq "Male"]) Null Null Null.

(** An intent that orders by [Sex] and leaves the direction to the
    default; [d] is [Absent] or [Null]. *)
Definition intent_order_by_sex (d : entry Direction) : QueryStructure :=
  mkStructure (Val SELECT) (Val "people") (Val []) Null (Val "Sex") d Null.

(** An intent whose [order_by] is the empty string. *)
Definition intent_empty_order_by : QueryStructure :=
  mkStructure (Val SELECT) (Val "people") (Val ["Sex"]) Null (Val "") Null Null.


(** The database has no table [people]. *)
Definition no_such_table (query : string) : outcome pyvalue :=
  Raise (Exn Exception "no such table: people").

(** ** Vocabulary and inputs of the further properties *)

(** An intent over the five columns of the [people] table. *)
Definition intent_males_by_name : QueryStructure :=
  mkStructure (Val SELECT) (Val "users") (Val ["First Name"; "Email"])
              (Val [mkWhere "Sex" OpEq "Male"]) (Val "Last Name") Absent
              (Val 5%Z).

Definition people_columns : list string :=
  ["Index"; "First Name"; "Last Name"; "Sex"; "Email"].

(** A database that finds no row. *)
Definition no_rows (query : string) : outcome pyvalue := Ok (PList []).

(** The column names that the shaper makes up for [n] columns. *)
Definition column_names (n : nat) : list string :=
  map (fun i => "col_" ++ str_of_nat i) (seq 0 n).

(** The dictionary of one row: the first [n] values under the made-up
    names. *)
Definition row_dict (n : nat) (row : list scalar) : list (string * scalar) :=
  combine (column_names n) (firstn n row).

(** The first value of a row. *)
Definition first_value (row : list scalar) : scalar := hd SNone row.

(** The workflow has selected [selected_table], read its [columns] and
    parsed the reply of the model into [intent]. *)
Definition workflow_reaches {figure : Type} (c : Collaborators figure)
    (user_query selected_table : string) (columns : list string)
    (intent : QueryStructure) : Prop :=
  exists tables reply content,
    get_tables c = Ok tables
    /\ llm_select_table c user_query (join ", " tables) = Ok reply
    /\ selected_table = strip c reply
    /\ get_table_columns c selected_table = Ok columns
    /\ llm_structure c user_query selected_table (join ", " columns) = Ok content
    /\ json_loads c (clean_reply c content) = Loaded intent.

(** From the parsed reply on, the workflow is validation, compilation
    and execution. *)
Definition validate_build_execute {figure : Type} (c : Collaborators figure)
    (selected_table : string) (columns : list string) (intent : QueryStructure)
  : outcome SqlResponse :=
  query_structure <- generate_structure_node selected_table columns intent ;;
  final_state <- build_and_execute_node (db c) query_structure ;;
  Ok (mkResponse (sql_query final_state) (result final_state) query_structure).

(** A reply of the model inside a markdown fence, and the JSON text in
    it. *)
Definition sample_json : string :=
  "{" ++ dq ++ "operation" ++ dq ++ ": " ++ dq ++ "COUNT" ++ dq ++ ", " ++
  dq ++ "where" ++ dq ++ ": [{" ++ dq ++ "column" ++ dq ++ ": " ++
  dq ++ "Gender" ++ dq ++ "}]}".

Definition sample_reply : string :=
  "```json" ++ nl ++ sample_json ++ nl ++ "```".

(** Collaborators over the [people] table: the model selects it and
    replies [sample_reply], which parses to [intent]. *)
Definition sample_collaborators
    (database : string -> outcome pyvalue) (intent : QueryStructure)
  : Collaborators unit :=
  mkCollaborators unit
    (Ok ["people"])
    (fun t => if String.eqb t "people" then Ok people_columns else Ok [])
    (fun _ _ => Ok (" people" ++ nl))
    (fun _ _ _ => Ok sample_reply)
    (fun text => if String.eqb text sample_json then Loaded intent
                 else JSONDecodeError "Expecting value: line 1 column 1 (char 0)")
    database
    (fun _ => Ok "Data type: dict")
    (fun _ _ _ => Ok "plt.show()")
    (fun _ _ => Ok tt)
    ascii_strip
    ascii_lower.

(** The model takes [Gender] for a column. *)
Definition intent_gender : QueryStructure :=
  mkStructure (Val COUNT) (Val "people") (Val [])
              (Val [mkWhere "Gender" OpEq "Male"]) Null Null Null.

(** The model counts the males. *)
Definition intent_count_males : QueryStructure :=
  mkStructure (Val COUNT) (Val "persons") (Val [])
              (Val [mkWhere "Sex" OpEq "Male"]) Null Null Null.

(** A database with one male. *)
Definition one_male (query : string) : outcome pyvalue :=
  Ok (PList [Tuple [SInt 1]]).

(** The markdown fence, and the number of backquotes a string starts
    with. *)
Definition fence : string := "```".

Fixpoint leading_backquotes (s : string) : nat :=
  match s with
  | EmptyString => 0
  | String a s' => if Ascii.eqb a "`" then S (leading_backquotes s') else 0
  end.

(** ** The LIMIT clause *)







(** * Properties *)

(** ** Strings *)

Section StringFacts.

Lemma append_assoc (a b c : string) : (a ++ b) ++ c = a ++ (b ++ c).
Proof.
  induction a as [ | x a IH]; simpl; [reflexivity | now rewrite IH].
Qed.

Lemma append_nil_r (a : string) : a ++ "" = a.
Proof.
  induction a as [ | x a IH]; simpl; [reflexivity | now rewrite IH].
Qed.


End StringFacts.

(** ** The SQL builder *)

(** C6: the two concrete structures of the specification compile to
    exactly the two documented query strings: the three oldest first
    names give
    [SELECT "First Name" FROM people ORDER BY "Date of birth" ASC LIMIT 3]
    and the count of males gives
    [SELECT COUNT( * ) FROM people WHERE Sex = 'Male']. *)
Theorem build_sql_scenarios :
  build_sql_from_structure oldest_first_names =
    Ok ("SELECT " ++ dq ++ "First Name" ++ dq ++ " FROM people ORDER BY " ++
        dq ++ "Date of birth" ++ dq ++ " ASC LIMIT 3")
  /\ build_sql_from_structure count_males =
    Ok "SELECT COUNT(*) FROM people WHERE Sex = 'Male'".
Proof.
  split; reflexivity.
Qed.

(** ** Validation *)

Lemma generate_structure_node_ok sel available intent s :
  generate_structure_node sel available intent = Ok s ->
  s = normalized sel intent.
Proof.
  unfold generate_structure_node.
  repeat match goal with
         | |- bind ?m _ = _ -> _ => destruct m; simpl; [ | discriminate]
         end.
  intros E; injection E as <-. reflexivity.
Qed.

Lemma generate_structure_node_set_table sel available intent t :
  generate_structure_node sel available (set_table intent t) =
  generate_structure_node sel available intent.
Proof.
  reflexivity.
Qed.

(** A validated structure holds every key; when the intent gave an
    operation and a list of columns, they are kept. *)
Lemma validated_structure_shape sel available intent op cols s :
  generate_structure_node sel available intent = Ok s ->
  get_default (operation intent) SELECT = Some op ->
  get_default (columns intent) [] = Some cols ->
  s = mkStructure (Val op) (Val sel) (Val cols)
        (where_ s) (order_by s) (order_direction s) (limit s)
  /\ has_key (where_ s) = true /\ has_key (order_by s) = true
  /\ has_key (order_direction s) = true /\ has_key (limit s) = true.
Proof.
  intros H Hop Hcols. apply generate_structure_node_ok in H. subst s.
  unfold normalized. cbn [where_ order_by order_direction limit].
  destruct (operation intent); try discriminate;
    destruct (columns intent); try discriminate;
    injection Hop as <-; injection Hcols as <-;
    destruct (where_ intent), (order_by intent), (order_direction intent),
      (limit intent); repeat split.
Qed.

(** C3: the [table] of a validated structure is the externally resolved
    table name, and validation as a whole does not depend on the table
    that the raw intent proposed. *)
Theorem validated_table_is_selected
    (selected_table : string) (available_columns : list string)
    (intent : QueryStructure) :
  (forall t,
      generate_structure_node selected_table available_columns (set_table intent t) =
      generate_structure_node selected_table available_columns intent)
  /\ (forall s,
         generate_structure_node selected_table available_columns intent = Ok s ->
         table s = Val selected_table).
Proof.
  split.
  - intros t. apply generate_structure_node_set_table.
  - intros s H. apply generate_structure_node_ok in H. subst s. reflexivity.
Qed.

Lemma validated_table_is_selected_witness :
  table (set_table intent_wrong_table (Val "people")) = Val "people".
Proof.
  exact (proj2 (validated_table_is_selected "people" ["Index"; "Sex"] intent_wrong_table)
               (set_table intent_wrong_table (Val "people")) eq_refl).
Defined.

(** A validated structure always holds the key [order_direction]: a
    direction the intent left out, or gave as [null], is stored as
    [None]. *)
Lemma validated_order_direction sel available intent s :
  generate_structure_node sel available intent = Ok s ->
  get (order_direction intent) = None ->
  order_direction s = Null.
Proof.
  intros H Hd. apply generate_structure_node_ok in H. subst s. simpl.
  destruct (order_direction intent); [reflexivity | reflexivity | discriminate].
Qed.

(** The builder renders a stored [None] direction as the text [None]. *)
Lemma null_direction_renders_None (s : QueryStructure) (c : ascii) (col sql : string) :
  order_by s = Val (String c col) ->
  order_direction s = Null ->
  build_sql_from_structure (set_limit s Absent) = Ok sql ->
  exists before,
    sql = before ++ " ORDER BY " ++ quote_if_space (String c col) ++ " None".
Proof.
  intros Hob Hod.
  unfold build_sql_from_structure, set_limit; simpl.
  rewrite Hob, Hod; simpl.
  destruct (getitem "operation" (operation s)); simpl; [ | discriminate].
  match goal with |- bind ?m _ = _ -> _ => destruct m end; simpl; [ | discriminate].
  destruct (getitem "table" (table s)); simpl; [ | discriminate].
  intros E; injection E as <-.
  eexists. reflexivity.
Qed.

(** C2: on the validated structure that orders by [Sex] with no
    direction, the compiled ordering clause is [ORDER BY Sex None], not
    [ORDER BY Sex ASC]: validation stores the missing direction as
    [None], and the builder's default only replaces a missing key. *)
Theorem unset_direction_compiles_to_None :
  (s <- generate_structure_node "people" ["Index"; "Sex"] (intent_order_by_sex Absent) ;;
   build_sql_from_structure s) = Ok "SELECT * FROM people ORDER BY Sex None"
  /\ (s <- generate_structure_node "people" ["Index"; "Sex"] (intent_order_by_sex Null) ;;
      build_sql_from_structure s) = Ok "SELECT * FROM people ORDER BY Sex None"
  /\ build_sql_from_structure (intent_order_by_sex Absent) =
       Ok "SELECT * FROM people ORDER BY Sex ASC".
Proof.
  repeat split; reflexivity.
Qed.

(** *** Unknown columns *)

Lemma for_each_find {A : Type} (name_of : A -> string) (available : list string)
      (where_found : string) (l : list A) :
  for_each (fun x =>
              if negb (str_in (name_of x) available)
              then Raise (column_not_found (name_of x) where_found available)
              else Ok tt) l =
  match find (unknown available) (map name_of l) with
  | Some name => Raise (column_not_found name where_found available)
  | None => Ok tt
  end.
Proof.
  induction l as [ | x l IH]; simpl; [reflexivity | ].
  unfold unknown at 1.
  destruct (negb (str_in (name_of x) available)); simpl; [reflexivity | exact IH].
Qed.

Lemma for_each_find_names (available : list string) (where_found : string)
      (l : list string) :
  for_each (fun col =>
              if negb (str_in col available)
              then Raise (column_not_found col where_found available)
              else Ok tt) l =
  match find (unknown available) l with
  | Some name => Raise (column_not_found name where_found available)
  | None => Ok tt
  end.
Proof.
  rewrite <- (map_id l) at 2.
  exact (for_each_find (fun x => x) available where_found l).
Qed.

Lemma place_injective (c1 c2 : context) : place c1 = place c2 -> c1 = c2.
Proof.
  destruct c1, c2; simpl; intros H; try reflexivity; discriminate.
Qed.

(** The validator as one scan over the three places. *)
Lemma generate_structure_node_scan
    (selected_table : string) (available_columns : list string)
    (intent : QueryStructure) :
  generate_structure_node selected_table available_columns intent =
  match find (unknown available_columns) (names_in_columns intent) with
  | Some name => Raise (column_not_found name "table" available_columns)
  | None =>
      match find (unknown available_columns) (names_in_where intent) with
      | Some name => Raise (column_not_found name "WHERE clause" available_columns)
      | None =>
          match find (unknown available_columns) (nonempty_name_in_order_by intent) with
          | Some name => Raise (column_not_found name "ORDER BY" available_columns)
          | None => Ok (normalized selected_table intent)
          end
      end
  end.
Proof.
  destruct intent as [op t cols w ob od lim].
  unfold generate_structure_node, names_in_columns, names_in_where,
    nonempty_name_in_order_by.
  cbn [columns where_ order_by set_table].
  set (done := Ok (normalized selected_table (mkStructure op t cols w ob od lim))).
  change (Ok (set_limit _ _)) with done.
  clearbody done.
  assert (Hwhere_order :
    (_ <- match get w with
          | Some ((_ :: _) as clauses) =>
              for_each (fun clause =>
                if negb (str_in (column clause) available_columns)
                then Raise (column_not_found (column clause) "WHERE clause"
                              available_columns)
                else Ok tt) clauses
          | _ => Ok tt
          end ;;
     _ <- match get ob with
          | Some ((String _ _) as col) =>
              if negb (str_in col available_columns)
              then Raise (column_not_found col "ORDER BY" available_columns)
              else Ok tt
          | _ => Ok tt
          end ;;
     done) =
    match find (unknown available_columns)
               match get w with
               | Some clauses => map column clauses
               | None => []
               end with
    | Some name => Raise (column_not_found name "WHERE clause" available_columns)
    | None =>
        match find (unknown available_columns)
                   match get ob with
                   | Some (String a col) => [String a col]
                   | _ => []
                   end with
        | Some name => Raise (column_not_found name "ORDER BY" available_columns)
        | None => done
        end
    end).
  { destruct w as [ | | [ | w ws]]; cbn [get bind].
    4: rewrite (for_each_find column available_columns "WHERE clause");
      destruct (find (unknown available_columns) (map column (w :: ws)));
      cbn [bind]; [reflexivity | ].
    all: cbn [find map];
      destruct ob as [ | | [ | a ob]]; cbn [get bind find];
      try reflexivity;
      unfold unknown;
      destruct (negb (str_in (String a ob) available_columns)); reflexivity. }
  destruct cols as [ | | [ | c cols]]; cbn [get bind];
    try exact Hwhere_order.
  rewrite (for_each_find_names available_columns "table").
  destruct (find (unknown available_columns) (c :: cols)); cbn [bind];
    [reflexivity | exact Hwhere_order].
Qed.

(** The empty string is not a column of the schema, yet validation
    succeeds: the check of [order_by] is skipped for it. *)
Lemma empty_order_by_is_accepted :
  ~ rejects_first_violation name_in_order_by "people" ["Index"; "Sex"]
      intent_empty_order_by.
Proof.
  unfold rejects_first_violation. simpl. discriminate.
Qed.

(** C4 (amended): an intent that names a column outside the schema in
    its [columns] list, in a [where] predicate, or in a non-empty
    [order_by] fails validation with the error of the first such name,
    scanning [columns], then [where], then [order_by]; the message
    gives the name and words the three places differently.  Otherwise
    validation returns the whole normalized structure, no field
    dropped.  An [order_by] that is the empty string counts as unset. *)
Theorem unknown_column_is_rejected
    (selected_table : string) (available_columns : list string)
    (intent : QueryStructure) :
  rejects_first_violation nonempty_name_in_order_by
    selected_table available_columns intent
  /\ (forall c1 c2, place c1 = place c2 -> c1 = c2).
Proof.
  split; [ | exact place_injective].
  unfold rejects_first_violation, first_violation.
  rewrite generate_structure_node_scan.
  destruct (find (unknown available_columns) (names_in_columns intent));
    [reflexivity | ].
  destruct (find (unknown available_columns) (names_in_where intent));
    [reflexivity | ].
  destruct (find (unknown available_columns) (nonempty_name_in_order_by intent));
    reflexivity.
Qed.

(** The validation scenario of the specification: [Gender] against a
    schema that has [Sex]. *)
Example gender_is_rejected :
  generate_structure_node "people"
    ["Index"; "First Name"; "Last Name"; "Sex"; "Email"]
    (mkStructure (Val COUNT) (Val "people") (Val [])
       (Val [mkWhere "Gender" OpEq "Male"]) Null Null Null) =
  Raise (column_not_found "Gender" (place InWhere)
           ["Index"; "First Name"; "Last Name"; "Sex"; "Email"]).
Proof.
  reflexivity.
Qed.

(** ** Quoting of identifiers *)



Lemma map_quote_if_space (cols : list string) :
  map quote_if_space cols = map (identifier contains_space) cols.
Proof.
  reflexivity.
Qed.


(** ** The result shaper *)

Section CounterFacts.

Local Open Scope list_scope.

Let keys (c : list (scalar * nat)) : list scalar := map fst c.
Let add (c : list (scalar * nat)) (elem : scalar) := counter_add elem c.

Lemma keys_add_seen v c :
  In v (keys c) -> keys (counter_add v c) = keys c.
Proof.
  unfold keys. induction c as [ | [k n] c IH]; simpl; intros H.
  - contradiction.
  - destruct (scalar_eq_dec k v) as [-> | Hne]; simpl; [reflexivity | ].
    f_equal. apply IH. destruct H as [H | H]; [contradiction | exact H].
Qed.

Lemma keys_add_new v c :
  ~ In v (keys c) -> keys (counter_add v c) = keys c ++ [v].
Proof.
  unfold keys. induction c as [ | [k n] c IH]; simpl; intros H.
  - reflexivity.
  - destruct (scalar_eq_dec k v) as [-> | Hne]; simpl.
    + exfalso. apply H. left. reflexivity.
    + f_equal. apply IH. intros Hin. apply H. right. exact Hin.
Qed.

Lemma filter_unseen_remove_new ks v l :
  filter (fun x => negb (seen (ks ++ [v]) x)) l =
  filter (fun x => negb (seen ks x)) (remove scalar_eq_dec v l).
Proof.
  induction l as [ | a l IH]; simpl; [reflexivity | ].
  destruct (scalar_eq_dec v a) as [<- | Hne].
  - unfold seen at 1.
    destruct (in_dec scalar_eq_dec v (ks ++ [v])) as [_ | Hn]; simpl; [exact IH | ].
    exfalso. apply Hn. apply in_or_app. right. left. reflexivity.
  - simpl. rewrite IH.
    assert (E : seen (ks ++ [v]) a = seen ks a).
    { unfold seen.
      destruct (in_dec scalar_eq_dec a (ks ++ [v])) as [Hi | Hi];
        destruct (in_dec scalar_eq_dec a ks) as [Hj | Hj]; try reflexivity.
      - apply in_app_or in Hi. destruct Hi as [Hi | [Hi | []]];
          [contradiction | congruence].
      - exfalso. apply Hi. apply in_or_app. left. exact Hj. }
    rewrite E. reflexivity.
Qed.

Lemma filter_unseen_remove_seen ks v l :
  In v ks ->
  filter (fun x => negb (seen ks x)) (remove scalar_eq_dec v l) =
  filter (fun x => negb (seen ks x)) l.
Proof.
  intros Hv. induction l as [ | a l IH]; simpl; [reflexivity | ].
  destruct (scalar_eq_dec v a) as [<- | Hne]; simpl.
  - unfold seen at 2.
    destruct (in_dec scalar_eq_dec v ks); [exact IH | contradiction].
  - rewrite IH. reflexivity.
Qed.

Lemma keys_fold values : forall c,
  keys (fold_left add values c) =
  keys c ++ filter (fun x => negb (seen (keys c) x)) (first_appearance values).
Proof.
  induction values as [ | v values IH]; intros c; simpl.
  - symmetry. apply app_nil_r.
  - rewrite IH. unfold add. unfold seen at 2.
    destruct (in_dec scalar_eq_dec v (keys c)) as [Hin | Hnin]; simpl.
    + rewrite (keys_add_seen v c Hin).
      rewrite (filter_unseen_remove_seen _ _ _ Hin). reflexivity.
    + rewrite (keys_add_new v c Hnin).
      rewrite <- app_assoc. simpl.
      rewrite filter_unseen_remove_new. reflexivity.
Qed.

Lemma Counter_keys values :
  map fst (Counter values) = first_appearance values.
Proof.
  unfold Counter. change (fun c elem => counter_add elem c) with add.
  change (map fst (fold_left add values [])) with (keys (fold_left add values [])).
  rewrite keys_fold. simpl.
  induction (first_appearance values) as [ | a l IH]; simpl; [reflexivity | ].
  f_equal. exact IH.
Qed.

Lemma counter_get_add v c k :
  counter_get (counter_add v c) k =
  counter_get c k + (if scalar_eq_dec v k then 1 else 0).
Proof.
  induction c as [ | [k' n] c IH]; simpl.
  - destruct (scalar_eq_dec v k); reflexivity.
  - destruct (scalar_eq_dec k' v) as [-> | Hne]; simpl.
    + destruct (scalar_eq_dec v k); lia.
    + destruct (scalar_eq_dec k' k) as [-> | Hne'].
      * destruct (scalar_eq_dec v k); [congruence | lia].
      * exact IH.
Qed.

Lemma counter_get_fold values : forall c k,
  counter_get (fold_left add values c) k =
  counter_get c k + count_occ scalar_eq_dec values k.
Proof.
  induction values as [ | v values IH]; intros c k; simpl.
  - lia.
  - rewrite IH. unfold add. rewrite counter_get_add.
    destruct (scalar_eq_dec v k); lia.
Qed.

Lemma counts_by_key c :
  NoDup (keys c) -> map snd c = map (counter_get c) (keys c).
Proof.
  unfold keys. induction c as [ | [k n] c IH]; simpl; intros H; [reflexivity | ].
  inversion H as [ | ? ? Hk Hnd]; subst.
  destruct (scalar_eq_dec k k) as [_ | Hne]; [ | contradiction].
  f_equal. rewrite (IH Hnd). apply map_ext_in.
  intros a Ha. destruct (scalar_eq_dec k a) as [-> | _]; [contradiction | reflexivity].
Qed.

Lemma sum_add v c :
  list_sum (map snd (counter_add v c)) = S (list_sum (map snd c)).
Proof.
  induction c as [ | [k n] c IH]; simpl; [reflexivity | ].
  destruct (scalar_eq_dec k v); simpl; [reflexivity | ]. rewrite IH. lia.
Qed.

Lemma sum_fold values : forall c,
  list_sum (map snd (fold_left add values c)) =
  list_sum (map snd c) + length values.
Proof.
  induction values as [ | v values IH]; intros c; simpl.
  - lia.
  - rewrite IH. unfold add. rewrite sum_add. lia.
Qed.

Lemma Counter_sum values :
  list_sum (map snd (Counter values)) = length values.
Proof.
  unfold Counter. change (fun c elem => counter_add elem c) with add.
  rewrite sum_fold. reflexivity.
Qed.

Lemma NoDup_remove_elt (x : scalar) l :
  NoDup l -> NoDup (remove scalar_eq_dec x l).
Proof.
  induction 1 as [ | a l Ha Hnd IH]; simpl; [constructor | ].
  destruct (scalar_eq_dec x a); [exact IH | ].
  constructor; [ | exact IH].
  intros Hin. apply in_remove in Hin. apply Ha. apply Hin.
Qed.

Lemma first_appearance_NoDup values : NoDup (first_appearance values).
Proof.
  induction values as [ | v values IH]; simpl; constructor.
  - apply remove_In.
  - apply NoDup_remove_elt. exact IH.
Qed.

Lemma first_appearance_In values v :
  In v (first_appearance values) <-> In v values.
Proof.
  induction values as [ | a values IH]; simpl; [tauto | ].
  split.
  - intros [H | H]; [left; exact H | ].
    apply in_remove in H. right. apply IH. apply H.
  - intros [H | H]; [left; exact H | ].
    destruct (scalar_eq_dec a v) as [E | Hne]; [left; exact E | ].
    right. apply in_in_remove; [congruence | apply IH; exact H].
Qed.

Lemma remove_split v l : forall x a y,
  remove scalar_eq_dec v l = x ++ a :: y ->
  exists x' y',
    l = x' ++ a :: y' /\
    remove scalar_eq_dec v x' = x /\ remove scalar_eq_dec v y' = y.
Proof.
  induction l as [ | h l IH]; intros x a y H; simpl in H.
  - destruct x; discriminate.
  - destruct (scalar_eq_dec v h) as [<- | Hne].
    + destruct (IH _ _ _ H) as (x' & y' & -> & Hx & Hy).
      exists (v :: x'), y'. repeat split; [ | exact Hy].
      simpl. destruct (scalar_eq_dec v v); [exact Hx | contradiction].
    + destruct x as [ | h' x]; simpl in H; injection H as -> H.
      * exists [], l. repeat split. exact H.
      * destruct (IH _ _ _ H) as (x' & y' & -> & Hx & Hy).
        exists (h' :: x'), y'. repeat split; [ | exact Hy].
        simpl. destruct (scalar_eq_dec v h'); [contradiction | now rewrite Hx].
Qed.

(** Of two categories, the one listed first is the one that appears
    first among the values. *)
Lemma first_appearance_order values : forall c1 a c2 b c3,
  first_appearance values = c1 ++ a :: c2 ++ b :: c3 ->
  exists l1 l2,
    values = l1 ++ a :: l2 /\ ~ In a l1 /\ ~ In b l1 /\ In b l2.
Proof.
  induction values as [ | v values IH]; intros c1 a c2 b c3 H; simpl in H.
  - destruct c1; discriminate.
  - destruct c1 as [ | h c1]; simpl in H; injection H as -> H.
    + exists [], values. repeat split; try (intros []).
      assert (Hb : In b (remove scalar_eq_dec a (first_appearance values))).
      { rewrite H. apply in_or_app. right. left. reflexivity. }
      apply in_remove in Hb. apply first_appearance_In. apply Hb.
    + assert (Ha : In a (remove scalar_eq_dec h (first_appearance values))).
      { rewrite H. apply in_or_app. right. left. reflexivity. }
      assert (Hb : In b (remove scalar_eq_dec h (first_appearance values))).
      { rewrite H. apply in_or_app. right. right.
        apply in_or_app. right. left. reflexivity. }
      apply in_remove in Ha. apply in_remove in Hb.
      destruct (remove_split _ _ _ _ _ H) as (x' & y' & E & _ & Hy).
      destruct (remove_split _ _ _ _ _ Hy) as (x'' & y'' & -> & _ & _).
      destruct (IH _ _ _ _ _ E) as (l1 & l2 & -> & Hna & Hnb & Hin).
      exists (h :: l1), l2. repeat split.
      * intros [Hh | Hh]; [apply (proj2 Ha); congruence | exact (Hna Hh)].
      * intros [Hh | Hh]; [apply (proj2 Hb); congruence | exact (Hnb Hh)].
      * exact Hin.
Qed.

Lemma Counter_counts values :
  map snd (Counter values) =
  map (count_occ scalar_eq_dec values) (first_appearance values).
Proof.
  rewrite counts_by_key.
  - unfold keys. rewrite Counter_keys. apply map_ext.
    intros k. unfold Counter. change (fun c elem => counter_add elem c) with add.
    rewrite counter_get_fold. reflexivity.
  - unfold keys. rewrite Counter_keys. apply first_appearance_NoDup.
Qed.

End CounterFacts.

Lemma first_of_single_column (values : list scalar) :
  comprehension (fun it => item_at it 0) (single_column values) = Ok values.
Proof.
  unfold single_column.
  induction values as [ | v values IH]; [reflexivity | ].
  cbn [map comprehension item_at nth_error bind].
  rewrite IH. reflexivity.
Qed.

(** C7: on the empty sequence, and on [None], the shaper returns the
    empty list without raising; the empty list is none of the three
    dictionaries, and a list of rows is shaped to it only when it has
    no row. *)
Theorem empty_input_gives_empty_list (query : string) :
  transform_sql_to_viz_data (PList []) query = Ok EmptyList
  /\ transform_sql_to_viz_data (PTuple []) query = Ok EmptyList
  /\ transform_sql_to_viz_data PNone query = Ok EmptyList
  /\ (forall categories counts total raw_values,
        EmptyList <> Categorical categories counts total raw_values)
  /\ (forall values total, EmptyList <> Numeric values total)
  /\ (forall rows columns total_rows, EmptyList <> RowTable rows columns total_rows)
  /\ (forall rows,
        transform_sql_to_viz_data (PList rows) query = Ok EmptyList -> rows = []).
Proof.
  repeat split; try discriminate.
  intros [ | [first | v] rows]; [reflexivity | | ];
    unfold transform_sql_to_viz_data;
    cbn [truthy length Nat.eqb negb to_list bind].
  - destruct (Nat.eqb (length first) 1).
    + destruct (comprehension (fun it => item_at it 0) (Tuple first :: rows))
        as [[ | [ | n | s] values] | e]; cbn [bind]; discriminate.
    + match goal with |- bind ?m _ = _ -> _ => destruct m end; cbn [bind];
        discriminate.
  - discriminate.
Qed.

(** The empty list of rows, and the only list shaped to the empty
    list. *)
Lemma empty_input_gives_empty_list_witness :
  transform_sql_to_viz_data (PList []) "" = Ok EmptyList /\ @nil item = [].
Proof.
  split.
  - exact (proj1 (empty_input_gives_empty_list "")).
  - exact (proj2 (proj2 (proj2 (proj2 (proj2 (proj2
             (empty_input_gives_empty_list "")))))) [] eq_refl).
Defined.

(** The shaping scenarios of the specification. *)
Example shape_scenarios :
  transform_sql_to_viz_data
    (PList [Tuple [SStr "Male"]; Tuple [SStr "Female"]; Tuple [SStr "Male"]]) "" =
    Ok (Categorical [SStr "Male"; SStr "Female"] [2; 1] 3
          [SStr "Male"; SStr "Female"; SStr "Male"])
  /\ transform_sql_to_viz_data
       (PList [Tuple [SInt 25]; Tuple [SInt 30]; Tuple [SInt 22]]) "" =
     Ok (Numeric [SInt 25; SInt 30; SInt 22] 3)
  /\ transform_sql_to_viz_data
       (PList [Tuple [SInt 1; SStr "Ann"]; Tuple [SInt 2; SStr "Bob"]]) "" =
     Ok (RowTable [[("col_0", SInt 1); ("col_1", SStr "Ann")];
                   [("col_0", SInt 2); ("col_1", SStr "Bob")]]
                  ["col_0"; "col_1"] 2).
Proof.
  repeat split; reflexivity.
Qed.

(** C8: a non-empty result of one column whose first value is a string
    is shaped to the categorical dictionary; its counts add up to its
    total, which is the number of rows; categories and counts have the
    same length; the categories are the distinct values in the order of
    their first appearance, and each count is the number of occurrences
    of its category. *)
Theorem categorical_aggregate_invariants
    (first : string) (rest : list scalar) (query : string) :
  exists categories counts,
    transform_sql_to_viz_data (PList (single_column (SStr first :: rest))) query =
      Ok (Categorical categories counts
            (length (single_column (SStr first :: rest))) (SStr first :: rest))
    /\ list_sum counts = length (single_column (SStr first :: rest))
    /\ length categories = length counts
    /\ categories = first_appearance (SStr first :: rest)
    /\ counts = map (count_occ scalar_eq_dec (SStr first :: rest)) categories
    /\ NoDup categories
    /\ (forall v, In v categories <-> In v (SStr first :: rest))
    /\ (forall c1 a c2 b c3,
          categories = (c1 ++ a :: c2 ++ b :: c3)%list ->
          exists l1 l2,
            SStr first :: rest = (l1 ++ a :: l2)%list /\
            ~ In a l1 /\ ~ In b l1 /\ In b l2).
Proof.
  exists (map fst (Counter (SStr first :: rest))),
         (map snd (Counter (SStr first :: rest))).
  assert (Hlen : length (single_column (SStr first :: rest)) =
                 length (SStr first :: rest))
    by (unfold single_column; apply length_map).
  repeat split.
  - unfold transform_sql_to_viz_data.
    change (truthy (PList (single_column (SStr first :: rest)))) with true.
    cbn [negb to_list bind].
    change (single_column (SStr first :: rest))
      with (Tuple [SStr first] :: single_column rest) at 1.
    cbn [length Nat.eqb].
    change (Tuple [SStr first] :: single_column rest)
      with (single_column (SStr first :: rest)).
    rewrite first_of_single_column. cbn [bind].
    rewrite Hlen. reflexivity.
  - rewrite Hlen. apply Counter_sum.
  - rewrite !length_map. reflexivity.
  - apply Counter_keys.
  - rewrite Counter_keys. apply Counter_counts.
  - rewrite Counter_keys. apply first_appearance_NoDup.
  - rewrite Counter_keys. apply first_appearance_In.
  - rewrite Counter_keys. apply first_appearance_In.
  - rewrite Counter_keys. apply first_appearance_order.
Qed.

(** C10: a non-empty string, and a non-empty list or tuple whose first
    element is not a tuple, reach no [return] of the shaper: the result
    is [None], which is neither the empty list nor one of the three
    dictionaries.  A string is what the executor hands over when the
    query gave no result. *)
Theorem non_tuple_rows_fall_through (query : string) :
  (forall a s, transform_sql_to_viz_data (PStr (String a s)) query = Ok ReturnsNone)
  /\ (forall v rest,
        transform_sql_to_viz_data (PList (Plain v :: rest)) query = Ok ReturnsNone)
  /\ (forall v rest,
        transform_sql_to_viz_data (PTuple (Plain v :: rest)) query = Ok ReturnsNone)
  /\ (forall db_run sql,
        db_run sql = Ok (PList []) ->
        r <- run_sql db_run sql ;; transform_sql_to_viz_data r query = Ok ReturnsNone)
  /\ ReturnsNone <> EmptyList
  /\ (forall categories counts total raw_values,
        ReturnsNone <> Categorical categories counts total raw_values)
  /\ (forall values total, ReturnsNone <> Numeric values total)
  /\ (forall rows columns total_rows, ReturnsNone <> RowTable rows columns total_rows).
Proof.
  repeat split; try discriminate; try reflexivity.
  intros db_run sql H. unfold run_sql. rewrite H. reflexivity.
Qed.

Lemma non_tuple_rows_fall_through_witness :
  (r <- run_sql (fun _ => Ok (PList [])) "SELECT * FROM people WHERE Sex = 'X'" ;;
   transform_sql_to_viz_data r "") = Ok ReturnsNone.
Proof.
  exact (proj1 (proj2 (proj2 (proj2 (non_tuple_rows_fall_through ""))))
               (fun _ => Ok (PList [])) "SELECT * FROM people WHERE Sex = 'X'" eq_refl).
Defined.

(** ** Execution failures *)

(** C9: when the database raises on the built query, the node raises
    nothing: it returns a state whose [result] is the dictionary
    [{"error": ...}] carrying the message of the failure, and whose
    [sql_query] is the query that was attempted. *)
Theorem execution_failure_is_reported
    (db_run : string -> outcome pyvalue) (structure : QueryStructure)
    (sql : string) (e : exn) :
  build_sql_from_structure structure = Ok sql ->
  db_run sql = Raise e ->
  build_and_execute_node db_run structure =
    Ok (mkState ["SQL execution failed: SQL execution error: " ++ exn_str e]
                sql
                (PDict [("error", SStr ("SQL execution error: " ++ exn_str e))])).
Proof.
  intros Hsql Hrun. unfold build_and_execute_node, run_sql.
  rewrite Hsql. cbn [bind]. rewrite Hrun. reflexivity.
Qed.

Lemma execution_failure_is_reported_witness :
  build_and_execute_node no_such_table count_males =
    Ok (mkState
          ["SQL execution failed: SQL execution error: no such table: people"]
          "SELECT COUNT(*) FROM people WHERE Sex = 'Male'"
          (PDict [("error", SStr "SQL execution error: no such table: people")])).
Proof.
  exact (execution_failure_is_reported no_such_table count_males
           "SELECT COUNT(*) FROM people WHERE Sex = 'Male'"
           (Exn Exception "no such table: people") eq_refl eq_refl).
Defined.

(** * Further properties of the validator and the builder *)

Lemma str_in_In (x : string) (l : list string) : str_in x l = true <-> In x l.
Proof.
  unfold str_in. rewrite existsb_exists. split.
  - intros (y & Hy & E). apply String.eqb_eq in E. subst y. exact Hy.
  - intros H. exists x. split; [exact H | apply String.eqb_refl].
Qed.

Lemma find_unknown_none (available : list string) (l : list string) :
  find (unknown available) l = None -> Forall (fun c => In c available) l.
Proof.
  intros H. apply Forall_forall. intros c Hc.
  pose proof (find_none _ _ H c Hc) as Hu. unfold unknown in Hu.
  apply str_in_In. destruct (str_in c available); [reflexivity | discriminate].
Qed.

Lemma normalized_names (sel : string) (intent : QueryStructure) :
  names_in_columns (normalized sel intent) = names_in_columns intent
  /\ names_in_where (normalized sel intent) = names_in_where intent
  /\ nonempty_name_in_order_by (normalized sel intent) =
     nonempty_name_in_order_by intent.
Proof.
  unfold names_in_columns, names_in_where, nonempty_name_in_order_by, normalized.
  cbn [columns where_ order_by].
  destruct (columns intent), (where_ intent), (order_by intent);
    repeat split; reflexivity.
Qed.

Lemma normalized_idempotent (sel : string) (intent : QueryStructure) :
  normalized sel (normalized sel intent) = normalized sel intent.
Proof.
  unfold normalized. cbn [operation columns where_ order_by order_direction limit].
  destruct (operation intent), (columns intent), (where_ intent),
    (order_by intent), (order_direction intent), (limit intent); reflexivity.
Qed.

Lemma validated_names_known
    (selected_table : string) (available_columns : list string)
    (intent s : QueryStructure) :
  generate_structure_node selected_table available_columns intent = Ok s ->
  Forall (fun c => In c available_columns)
         (names_in_columns s ++ names_in_where s ++
          nonempty_name_in_order_by s)%list.
Proof.
  intros H. pose proof (generate_structure_node_ok _ _ _ _ H) as ->.
  rewrite generate_structure_node_scan in H.
  destruct (normalized_names selected_table intent) as (-> & -> & ->).
  destruct (find (unknown available_columns) (names_in_columns intent)) eqn:Ec;
    [discriminate | ].
  destruct (find (unknown available_columns) (names_in_where intent)) eqn:Ew;
    [discriminate | ].
  destruct (find (unknown available_columns) (nonempty_name_in_order_by intent))
    eqn:Eo; [discriminate | ].
  repeat (apply Forall_app; split); apply find_unknown_none; assumption.
Qed.

(** X1: every column that a validated structure names, in [columns], in a
    [where] predicate or in a non-empty [order_by], is a column of the
    schema it was validated against. *)
Theorem validated_columns_are_known
    (selected_table : string) (available_columns : list string)
    (intent s : QueryStructure) :
  generate_structure_node selected_table available_columns intent = Ok s ->
  Forall (fun c => In c available_columns)
         (names_in_columns s ++ names_in_where s ++
          nonempty_name_in_order_by s)%list.
Proof.
  exact (validated_names_known selected_table available_columns intent s).
Qed.

Lemma validated_columns_are_known_witness :
  Forall (fun c => In c people_columns) ["First Name"; "Email"; "Sex"; "Last Name"].
Proof.
  exact (validated_columns_are_known "people" people_columns intent_males_by_name
           (normalized "people" intent_males_by_name) eq_refl).
Defined.

(** X2: validating a validated structure again, against the same table and
    columns, returns it unchanged. *)
Theorem validation_is_idempotent
    (selected_table : string) (available_columns : list string)
    (intent s : QueryStructure) :
  generate_structure_node selected_table available_columns intent = Ok s ->
  generate_structure_node selected_table available_columns s = Ok s.
Proof.
  intros H. pose proof (generate_structure_node_ok _ _ _ _ H) as ->.
  rewrite generate_structure_node_scan in H.
  rewrite generate_structure_node_scan.
  destruct (normalized_names selected_table intent) as (-> & -> & ->).
  destruct (find (unknown available_columns) (names_in_columns intent));
    [discriminate | ].
  destruct (find (unknown available_columns) (names_in_where intent));
    [discriminate | ].
  destruct (find (unknown available_columns) (nonempty_name_in_order_by intent));
    [discriminate | ].
  rewrite normalized_idempotent. reflexivity.
Qed.

Lemma validation_is_idempotent_witness :
  generate_structure_node "people" people_columns
    (normalized "people" intent_males_by_name) =
  Ok (normalized "people" intent_males_by_name).
Proof.
  exact (validation_is_idempotent "people" people_columns intent_males_by_name
           (normalized "people" intent_males_by_name) eq_refl).
Defined.

(** The builder on a structure that holds an operation, a table and a
    list of columns. *)
Lemma build_sql_rendering
    (op : Operation) (t : string) (cols : list string)
    (w : entry (list WhereClause)) (ob : entry string)
    (od : entry Direction) (lim : entry Z) :
  build_sql_from_structure (mkStructure (Val op) (Val t) (Val cols) w ob od lim) =
  Ok (rendering (identifier contains_space) op t cols (get w) (get ob)
        (format Direction_str (get_default od ASC)) (get lim)).
Proof.
  unfold build_sql_from_structure, rendering, source_clause.
  cbn [operation table columns where_ order_by order_direction limit].
  destruct op; [destruct cols as [ | c cols] | ];
    cbn [getitem bind is_count format map projection_clause];
    rewrite ?map_quote_if_space;
    (destruct w as [ | | [ | p ps]]; cbn [get predicate_clause];
     destruct ob as [ | | [ | a name]]; cbn [get ordering_clause];
     destruct lim as [ | | n]; cbn [get limit_clause];
     try destruct (Z.eqb n 0); cbn [negb andb];
     rewrite ?append_assoc, ?append_nil_r; reflexivity).
Qed.

(** X3: validation followed by compilation: when the intent gives an
    operation and a list of columns, or leaves them out, the validated
    structure always compiles, and the query is exactly the rendering
    of the intent's columns, predicates, ordering and limit over the
    selected table, whatever table the intent proposed.  The direction
    is the one the intent gives; when it gives none, the text in its
    place is [None]. *)
Theorem validated_structure_compiles
    (selected_table : string) (available_columns : list string)
    (intent s : QueryStructure) (op : Operation) (cols : list string) :
  generate_structure_node selected_table available_columns intent = Ok s ->
  get_default (operation intent) SELECT = Some op ->
  get_default (columns intent) [] = Some cols ->
  build_sql_from_structure s =
  Ok (rendering (identifier contains_space) op selected_table cols
        (get (where_ intent)) (get (order_by intent))
        (format Direction_str (get (order_direction intent)))
        (get (limit intent))).
Proof.
  intros H Hop Hcols.
  destruct (validated_structure_shape _ _ _ _ _ _ H Hop Hcols) as (E & _).
  pose proof (generate_structure_node_ok _ _ _ _ H) as Hs.
  rewrite E. rewrite build_sql_rendering.
  subst s. unfold normalized. cbn [where_ order_by order_direction limit].
  destruct (where_ intent), (order_by intent), (order_direction intent),
    (limit intent); reflexivity.
Qed.

(** The intent over the [people] table, by descending last name. *)
Lemma validated_structure_compiles_witness :
  build_sql_from_structure
    (normalized "people" (set_order_direction intent_males_by_name (Val DESC))) =
  Ok ("SELECT " ++ dq ++ "First Name" ++ dq ++ ", Email FROM people" ++
      " WHERE Sex = 'Male' ORDER BY " ++ dq ++ "Last Name" ++ dq ++
      " DESC LIMIT 5").
Proof.
  exact (validated_structure_compiles "people" people_columns
           (set_order_direction intent_males_by_name (Val DESC))
           (normalized "people"
              (set_order_direction intent_males_by_name (Val DESC)))
           SELECT ["First Name"; "Email"] eq_refl eq_refl eq_refl).
Defined.

(** X4: the builder returns a query exactly when the structure holds the
    keys [operation] and [table] and, unless it is a COUNT, a list
    under [columns]: the keys [where], [order_by], [order_direction]
    and [limit] may all be missing or [None]. *)
Theorem builder_returns_iff (structure : QueryStructure) :
  (exists sql, build_sql_from_structure structure = Ok sql) <->
  has_key (operation structure) = true
  /\ has_key (table structure) = true
  /\ (is_count (get (operation structure)) = true
      \/ exists cols, columns structure = Val cols).
Proof.
  unfold build_sql_from_structure.
  destruct (operation structure) as [ | | [ | ]]; cbn [getitem bind is_count get has_key].
  - split; [intros [sql H]; discriminate | intros (H & _); discriminate].
  - destruct (columns structure) as [ | | cols]; cbn [getitem bind].
    + split; [intros [sql H]; discriminate | ].
      intros (_ & _ & [H | [cols H]]); discriminate.
    + split; [intros [sql H]; discriminate | ].
      intros (_ & _ & [H | [cols H]]); discriminate.
    + destruct (map quote_if_space cols); cbn [bind];
        (destruct (table structure); cbn [getitem bind has_key];
         [split; [intros [sql H]; discriminate | intros (_ & H & _); discriminate]
         | split; [intros _; repeat split; right; eexists; reflexivity
                  | intros _; eexists; reflexivity] ..]).
  - destruct (columns structure) as [ | | cols]; cbn [getitem bind].
    + split; [intros [sql H]; discriminate | ].
      intros (_ & _ & [H | [cols H]]); discriminate.
    + split; [intros [sql H]; discriminate | ].
      intros (_ & _ & [H | [cols H]]); discriminate.
    + destruct (map quote_if_space cols); cbn [bind];
        (destruct (table structure); cbn [getitem bind has_key];
         [split; [intros [sql H]; discriminate | intros (_ & H & _); discriminate]
         | split; [intros _; repeat split; right; eexists; reflexivity
                  | intros _; eexists; reflexivity] ..]).
  - destruct (table structure); cbn [getitem bind has_key];
      [split; [intros [sql H]; discriminate | intros (_ & H & _); discriminate]
      | split; [intros _; repeat split; left; reflexivity
               | intros _; eexists; reflexivity] ..].
Qed.

(** * Further properties of the executor and its node *)

Lemma run_sql_truthy (db_run : string -> outcome pyvalue) (query : string) v :
  run_sql db_run query = Ok v -> truthy v = true.
Proof.
  unfold run_sql. destruct (db_run query) as [v0 | e]; [ | discriminate].
  destruct (truthy v0) eqn:Hv; cbn [negb]; intros H; injection H as <-;
    [exact Hv | reflexivity].
Qed.

Lemma node_result_truthy db_run structure st :
  build_and_execute_node db_run structure = Ok st -> truthy (result st) = true.
Proof.
  unfold build_and_execute_node.
  destruct (build_sql_from_structure structure) as [sql | e]; cbn [bind];
    [ | discriminate].
  destruct (run_sql db_run sql) as [v | e] eqn:Hrun; intros H; injection H as <-.
  - cbn [result]. exact (run_sql_truthy _ _ _ Hrun).
  - reflexivity.
Qed.

Lemma node_sql_query db_run structure st :
  build_and_execute_node db_run structure = Ok st ->
  build_sql_from_structure structure = Ok (sql_query st).
Proof.
  unfold build_and_execute_node.
  destruct (build_sql_from_structure structure) as [sql | e]; cbn [bind];
    [ | discriminate].
  destruct (run_sql db_run sql); intros H; injection H as <-; reflexivity.
Qed.

(** X5: [run_sql] never returns an empty value: a result of the database
    that is [None] or empty is replaced by a message, any other result
    is returned as it is; a failure of the database is raised again as
    an [Exception] whose text is the text of the failure after a fixed
    prefix. *)
Theorem run_sql_outcomes (db_run : string -> outcome pyvalue) (query : string) :
  match run_sql db_run query with
  | Ok v =>
      truthy v = true
      /\ (db_run query = Ok v
          \/ (v = PStr "Query returned no results."
              /\ exists v0, db_run query = Ok v0 /\ truthy v0 = false))
  | Raise e =>
      exists e0, db_run query = Raise e0
                 /\ e = Exn Exception ("SQL execution error: " ++ exn_str e0)
  end.
Proof.
  unfold run_sql. destruct (db_run query) as [v | e0].
  - destruct (truthy v) eqn:Hv; cbn [negb].
    + split; [exact Hv | left; reflexivity].
    + split; [reflexivity | right]. split; [reflexivity | ].
      exists v. split; [reflexivity | exact Hv].
  - exists e0. split; reflexivity.
Qed.

(** X6: the node raises exactly when the builder raises, and then the
    builder's exception; whatever the database does, a built query is
    reported back in [sql_query] with a [result] that is not empty. *)
Theorem node_raises_only_with_builder
    (db_run : string -> outcome pyvalue) (structure : QueryStructure) :
  match build_sql_from_structure structure with
  | Raise e => build_and_execute_node db_run structure = Raise e
  | Ok sql =>
      exists st,
        build_and_execute_node db_run structure = Ok st
        /\ sql_query st = sql /\ truthy (result st) = true
  end.
Proof.
  unfold build_and_execute_node.
  destruct (build_sql_from_structure structure) as [sql | e]; cbn [bind];
    [ | reflexivity].
  destruct (run_sql db_run sql) as [v | e] eqn:Hrun.
  - eexists. split; [reflexivity | ]. split; [reflexivity | ].
    cbn [result]. exact (run_sql_truthy _ _ _ Hrun).
  - eexists. split; [reflexivity | ]. split; reflexivity.
Qed.

(** X7: what the node reports is never shaped to the empty list: the
    shaper returns the empty list only for an empty value, and the
    executor has replaced every empty result by its message. *)
Theorem node_result_never_shapes_to_empty
    (db_run : string -> outcome pyvalue) (structure : QueryStructure)
    (st : SQLAgentState) (query : string) :
  build_and_execute_node db_run structure = Ok st ->
  transform_sql_to_viz_data (result st) query <> Ok EmptyList.
Proof.
  intros H. apply node_result_truthy in H.
  unfold transform_sql_to_viz_data. rewrite H. cbn [negb].
  destruct (result st) as [ | n | s | d | l | l]; cbn [to_list bind];
    try discriminate.
  - destruct (map _ (list_ascii_of_string s)) as [ | [t | v] rest];
      [discriminate | | discriminate].
    destruct (Nat.eqb (length t) 1).
    + match goal with |- bind ?m _ <> _ => destruct m as [[ | [ | ? | ?] ?] | ?] end;
        cbn [bind]; discriminate.
    + match goal with |- bind ?m _ <> _ => destruct m end; cbn [bind]; discriminate.
  - destruct l as [ | [t | v] rest]; [discriminate | | discriminate].
    destruct (Nat.eqb (length t) 1).
    + match goal with |- bind ?m _ <> _ => destruct m as [[ | [ | ? | ?] ?] | ?] end;
        cbn [bind]; discriminate.
    + match goal with |- bind ?m _ <> _ => destruct m end; cbn [bind]; discriminate.
  - destruct l as [ | [t | v] rest]; [discriminate | | discriminate].
    destruct (Nat.eqb (length t) 1).
    + match goal with |- bind ?m _ <> _ => destruct m as [[ | [ | ? | ?] ?] | ?] end;
        cbn [bind]; discriminate.
    + match goal with |- bind ?m _ <> _ => destruct m end; cbn [bind]; discriminate.
Qed.

Lemma node_result_never_shapes_to_empty_witness :
  transform_sql_to_viz_data
    (result (mkState ["SQL executed successfully"]
               "SELECT COUNT(*) FROM people WHERE Sex = 'Male'"
               (PStr "Query returned no results."))) "" <> Ok EmptyList.
Proof.
  exact (node_result_never_shapes_to_empty no_rows count_males _ "" eq_refl).
Defined.

(** * Further properties of the result shaper *)

Section ShaperFacts.

Local Open Scope list_scope.

Lemma to_uint_not_nil (n : nat) : Nat.to_uint n <> Decimal.Nil.
Proof.
  destruct n as [ | n]; [discriminate | ].
  intros H. pose proof (Unsigned.of_to (S n)) as E. rewrite H in E. discriminate E.
Qed.

Lemma str_of_nat_injective (a b : nat) : str_of_nat a = str_of_nat b -> a = b.
Proof.
  unfold str_of_nat. intros H.
  apply Unsigned.to_uint_inj.
  pose proof (NilZero.usu _ (to_uint_not_nil a)) as Ha.
  pose proof (NilZero.usu _ (to_uint_not_nil b)) as Hb.
  rewrite H in Ha. rewrite Ha in Hb. injection Hb as E. exact E.
Qed.

Lemma column_names_length (n : nat) : length (column_names n) = n.
Proof.
  unfold column_names. rewrite length_map. apply length_seq.
Qed.

Lemma column_names_NoDup (n : nat) : NoDup (column_names n).
Proof.
  unfold column_names.
  assert (Hinj : forall a b,
             ("col_" ++ str_of_nat a)%string = ("col_" ++ str_of_nat b)%string ->
             a = b).
  { intros a b H. apply str_of_nat_injective.
    simpl in H. injection H as H. exact H. }
  induction (seq_NoDup n 0) as [ | i l Hi _ IH]; cbn [map]; constructor;
    [ | exact IH].
  intros Hin. apply in_map_iff in Hin. destruct Hin as (j & E & Hj).
  apply Hinj in E. subst j. contradiction.
Qed.

Lemma column_names_nth (n i : nat) :
  i < n -> nth i (column_names n) EmptyString = ("col_" ++ str_of_nat i)%string.
Proof.
  intros H. unfold column_names.
  set (f := fun i => ("col_" ++ str_of_nat i)%string).
  rewrite (nth_indep _ EmptyString (f 0))
    by (rewrite length_map, length_seq; exact H).
  rewrite map_nth. rewrite seq_nth by exact H. reflexivity.
Qed.

Lemma item_at_tuple (row : list scalar) (i : nat) :
  item_at (Tuple row) i =
  match nth_error row i with
  | Some v => Ok v
  | None => Raise (Exn IndexError "tuple index out of range")
  end.
Proof.
  reflexivity.
Qed.

Lemma skipn_nth_error {A : Type} (l : list A) : forall a x,
  nth_error l a = Some x -> skipn a l = x :: skipn (S a) l.
Proof.
  induction l as [ | h l IH]; intros [ | a] x H; simpl in *; try discriminate.
  - injection H as ->. reflexivity.
  - exact (IH a x H).
Qed.

(** The dictionary comprehension over the columns [a], ..., [a+k-1] of a
    row that has them all. *)
Lemma row_comprehension (names : list string) (row : list scalar) : forall k a,
  a + k <= length row ->
  comprehension (fun i => v <- item_at (Tuple row) i ;; Ok (nth i names EmptyString, v))
                (seq a k) =
  Ok (combine (map (fun i => nth i names EmptyString) (seq a k))
              (firstn k (skipn a row))).
Proof.
  induction k as [ | k IH]; intros a H; [reflexivity | ].
  cbn [seq comprehension]. rewrite item_at_tuple.
  destruct (nth_error row a) as [x | ] eqn:Hx.
  - cbn [bind]. rewrite (IH (S a)) by lia. cbn [bind map].
    rewrite (skipn_nth_error _ _ _ Hx). reflexivity.
  - apply nth_error_None in Hx. lia.
Qed.

(** The same comprehension on a row that is too short. *)
Lemma row_comprehension_short (names : list string) (row : list scalar) : forall k a,
  a <= length row -> length row < a + k ->
  comprehension (fun i => v <- item_at (Tuple row) i ;; Ok (nth i names EmptyString, v))
                (seq a k) =
  Raise (Exn IndexError "tuple index out of range").
Proof.
  induction k as [ | k IH]; intros a Ha H; [lia | ].
  cbn [seq comprehension]. rewrite item_at_tuple.
  destruct (nth_error row a) as [x | ] eqn:Hx.
  - cbn [bind].
    assert (a < length row) by (apply nth_error_Some; congruence).
    rewrite (IH (S a)) by lia. reflexivity.
  - reflexivity.
Qed.

Lemma row_dict_comprehension (n : nat) (row : list scalar) :
  n <= length row ->
  comprehension (fun i => v <- item_at (Tuple row) i ;;
                          Ok (nth i (column_names n) EmptyString, v))
                (seq 0 n) = Ok (row_dict n row).
Proof.
  intros H. rewrite row_comprehension by exact H.
  unfold row_dict. cbn [skipn]. f_equal. f_equal.
  unfold column_names at 2. apply map_ext_in.
  intros i Hi. apply in_seq in Hi. apply column_names_nth. lia.
Qed.

Lemma rows_comprehension (n : nat) (rows : list (list scalar)) :
  Forall (fun row => n <= length row) rows ->
  comprehension (fun row =>
    comprehension (fun i => v <- item_at row i ;;
                            Ok (nth i (column_names n) EmptyString, v))
                  (seq 0 n)) (map Tuple rows) =
  Ok (map (row_dict n) rows).
Proof.
  induction 1 as [ | row rows Hrow _ IH]; [reflexivity | ].
  cbn [map comprehension]. rewrite (row_dict_comprehension n row Hrow).
  cbn [bind]. rewrite IH. reflexivity.
Qed.

Lemma rows_comprehension_short (n : nat) (before : list (list scalar))
      (short : list scalar) (after : list (list scalar)) :
  Forall (fun row => n <= length row) before ->
  length short < n ->
  comprehension (fun row =>
    comprehension (fun i => v <- item_at row i ;;
                            Ok (nth i (column_names n) EmptyString, v))
                  (seq 0 n)) (map Tuple (before ++ short :: after)) =
  Raise (Exn IndexError "tuple index out of range").
Proof.
  intros Hb Hs. induction Hb as [ | row rows Hrow _ IH].
  - cbn [app map comprehension].
    rewrite row_comprehension_short by lia. reflexivity.
  - cbn [app map comprehension]. rewrite (row_dict_comprehension n row Hrow).
    cbn [bind]. rewrite IH. reflexivity.
Qed.

Lemma first_values (rows : list (list scalar)) :
  Forall (fun row => 1 <= length row) rows ->
  comprehension (fun it => item_at it 0) (map Tuple rows) =
  Ok (map first_value rows).
Proof.
  induction 1 as [ | row rows Hrow _ IH]; [reflexivity | ].
  cbn [map comprehension item_at]. destruct row as [ | v row]; [simpl in Hrow; lia | ].
  cbn [nth_error bind first_value hd]. rewrite IH. reflexivity.
Qed.

Lemma first_values_short (before : list (list scalar)) (after : list (list scalar)) :
  Forall (fun row => 1 <= length row) before ->
  comprehension (fun it => item_at it 0) (map Tuple (before ++ [] :: after)) =
  Raise (Exn IndexError "tuple index out of range").
Proof.
  induction 1 as [ | row rows Hrow _ IH]; [reflexivity | ].
  cbn [app map comprehension item_at]. destruct row as [ | v row]; [simpl in Hrow; lia | ].
  cbn [nth_error bind]. rewrite IH. reflexivity.
Qed.

End ShaperFacts.

Lemma transform_rows (first : list scalar) (more : list (list scalar)) (query : string) :
  transform_sql_to_viz_data (PList (map Tuple (first :: more))) query =
  if Nat.eqb (length first) 1 then
    values <- comprehension (fun it => item_at it 0) (map Tuple (first :: more)) ;;
    match values with
    | [] => Raise (Exn IndexError "list index out of range")
    | SStr _ :: _ =>
        Ok (Categorical (map fst (Counter values)) (map snd (Counter values))
              (length values) values)
    | _ :: _ => Ok (Numeric values (length values))
    end
  else
    rows <- comprehension (fun row =>
              comprehension (fun i =>
                v <- item_at row i ;;
                Ok (nth i (column_names (length first)) EmptyString, v))
                (seq 0 (length first))) (map Tuple (first :: more)) ;;
    Ok (RowTable rows (column_names (length first)) (length rows)).
Proof.
  reflexivity.
Qed.

(** X8: a result of one column whose first value is not a string is shaped
    to the numeric dictionary: the values in the order of the rows, and
    their number as the total. *)
Theorem numeric_series_invariants
    (v : scalar) (rest : list scalar) (query : string) :
  (forall s, v <> SStr s) ->
  transform_sql_to_viz_data (PList (single_column (v :: rest))) query =
  Ok (Numeric (v :: rest) (length (single_column (v :: rest)))).
Proof.
  intros Hv. unfold transform_sql_to_viz_data.
  change (truthy (PList (single_column (v :: rest)))) with true.
  cbn [negb to_list bind].
  change (single_column (v :: rest)) with (Tuple [v] :: single_column rest) at 1.
  cbn [length Nat.eqb].
  change (Tuple [v] :: single_column rest) with (single_column (v :: rest)).
  rewrite first_of_single_column. cbn [bind].
  unfold single_column. rewrite length_map.
  destruct v as [ | n | s]; [reflexivity | reflexivity | ].
  exfalso. exact (Hv s eq_refl).
Qed.

Lemma numeric_series_invariants_witness :
  transform_sql_to_viz_data
    (PList (single_column [SInt 25; SStr "n/a"; SNone; SInt 22])) "" =
  Ok (Numeric [SInt 25; SStr "n/a"; SNone; SInt 22] 4).
Proof.
  refine (numeric_series_invariants (SInt 25) [SStr "n/a"; SNone; SInt 22] "" _).
  intros s H. discriminate H.
Defined.

Lemma first_row_shape
    (v : scalar) (more : list (list scalar)) (query : string) :
  Forall (fun row => 1 <= length row) more ->
  transform_sql_to_viz_data (PList (map Tuple ([v] :: more))) query =
  Ok (match v with
      | SStr _ =>
          Categorical (first_appearance (v :: map first_value more))
            (map (count_occ scalar_eq_dec (v :: map first_value more))
                 (first_appearance (v :: map first_value more)))
            (S (length more)) (v :: map first_value more)
      | _ => Numeric (v :: map first_value more) (S (length more))
      end).
Proof.
  intros H. rewrite transform_rows. cbn [length Nat.eqb].
  rewrite (first_values ([v] :: more)) by (constructor; [simpl; lia | exact H]).
  cbn [bind map first_value hd length]. rewrite length_map.
  destruct v as [ | n | s]; [reflexivity | reflexivity | ].
  rewrite Counter_keys, Counter_counts. reflexivity.
Qed.

(** X9: only the first row decides the shape: when it has one value, the
    first value of every later row is taken, however many values that
    row has, and the values are counted as categories or listed as
    numbers according to the first value alone. *)
Theorem first_row_decides
    (v : scalar) (more : list (list scalar)) (query : string) :
  Forall (fun row => 1 <= length row) more ->
  transform_sql_to_viz_data (PList (map Tuple ([v] :: more))) query =
  Ok (match v with
      | SStr _ =>
          Categorical (first_appearance (v :: map first_value more))
            (map (count_occ scalar_eq_dec (v :: map first_value more))
                 (first_appearance (v :: map first_value more)))
            (S (length more)) (v :: map first_value more)
      | _ => Numeric (v :: map first_value more) (S (length more))
      end).
Proof.
  exact (first_row_shape v more query).
Qed.

Lemma first_row_decides_witness :
  transform_sql_to_viz_data
    (PList (map Tuple [[SInt 1]; [SStr "Ann"; SInt 30]; [SNone]])) "" =
  Ok (Numeric [SInt 1; SStr "Ann"; SNone] 3).
Proof.
  refine (first_row_decides (SInt 1) [[SStr "Ann"; SInt 30]; [SNone]] "" _).
  repeat constructor.
Defined.

(** X10: a result whose first row has [n] values, [n] other than one, is
    shaped to the table of rows: the column names are the [n] distinct
    names [col_0], ..., and each row becomes the dictionary of its
    first [n] values under these names, in order; the total is the
    number of rows.  Values beyond the [n]-th of a longer row are left
    out. *)
Theorem row_table_invariants
    (first : list scalar) (more : list (list scalar)) (query : string) :
  length first <> 1 ->
  Forall (fun row => length first <= length row) more ->
  transform_sql_to_viz_data (PList (map Tuple (first :: more))) query =
    Ok (RowTable (map (row_dict (length first)) (first :: more))
                 (column_names (length first)) (S (length more)))
  /\ NoDup (column_names (length first))
  /\ length (column_names (length first)) = length first
  /\ Forall (fun row =>
               map fst (row_dict (length first) row) = column_names (length first)
               /\ map snd (row_dict (length first) row) = firstn (length first) row)
            (first :: more).
Proof.
  intros Hn Hmore.
  assert (Hall : Forall (fun row => length first <= length row) (first :: more))
    by (constructor; [lia | exact Hmore]).
  split; [ | split; [apply column_names_NoDup | split; [apply column_names_length | ]]].
  - rewrite transform_rows.
    destruct (Nat.eqb_spec (length first) 1) as [E | _]; [contradiction | ].
    rewrite (rows_comprehension _ _ Hall). cbn [bind].
    rewrite length_map. reflexivity.
  - apply Forall_forall. intros row Hrow.
    pose proof (proj1 (Forall_forall _ _) Hall row Hrow) as Hlen.
    cbv beta in Hlen.
    assert (Hsame : length (column_names (length first)) =
                    length (firstn (length first) row)).
    { rewrite column_names_length, firstn_length_le; [reflexivity | exact Hlen]. }
    unfold row_dict. split.
    + clear -Hsame. revert Hsame.
      generalize (firstn (length first) row) as vs.
      induction (column_names (length first)) as [ | c cs IH]; intros [ | x vs] H;
        simpl in *; try reflexivity; try discriminate.
      f_equal. apply IH. lia.
    + clear -Hsame. revert Hsame.
      generalize (firstn (length first) row) as vs.
      induction (column_names (length first)) as [ | c cs IH]; intros [ | x vs] H;
        simpl in *; try reflexivity; try discriminate.
      f_equal. apply IH. lia.
Qed.

Lemma row_table_invariants_witness :
  transform_sql_to_viz_data
    (PList (map Tuple [[SInt 1; SStr "Ann"]; [SInt 2; SStr "Bob"; SNone]])) "" =
  Ok (RowTable [[("col_0", SInt 1); ("col_1", SStr "Ann")];
                [("col_0", SInt 2); ("col_1", SStr "Bob")]]
               ["col_0"; "col_1"] 2).
Proof.
  refine (proj1 (row_table_invariants [SInt 1; SStr "Ann"]
                   [[SInt 2; SStr "Bob"; SNone]] "" _ _)).
  - simpl. lia.
  - repeat constructor.
Defined.

(** X11: a row with fewer values than the first row makes the shaper raise
    [IndexError]; nothing is returned for the rows before it. *)
Theorem short_row_raises
    (first : list scalar) (before : list (list scalar)) (short : list scalar)
    (after : list (list scalar)) (query : string) :
  Forall (fun row => length first <= length row) before ->
  length short < length first ->
  transform_sql_to_viz_data
    (PList (map Tuple (first :: before ++ short :: after)%list)) query =
  Raise (Exn IndexError "tuple index out of range").
Proof.
  intros Hb Hs. rewrite transform_rows.
  assert (Hall : Forall (fun row => length first <= length row) (first :: before))
    by (constructor; [lia | exact Hb]).
  change (first :: (before ++ short :: after)%list)
    with ((first :: before) ++ short :: after)%list.
  destruct (Nat.eqb_spec (length first) 1) as [E | _].
  - rewrite E in Hs, Hall. destruct short as [ | x short]; [ | simpl in Hs; lia].
    rewrite (first_values_short _ _ Hall). reflexivity.
  - rewrite (rows_comprehension_short _ _ _ _ Hall Hs). reflexivity.
Qed.

Lemma short_row_raises_witness :
  transform_sql_to_viz_data
    (PList (map Tuple [[SInt 1; SStr "Ann"]; [SInt 2; SStr "Bob"]; [SInt 3];
                       [SInt 4; SStr "Dan"]])) "" =
  Raise (Exn IndexError "tuple index out of range").
Proof.
  refine (short_row_raises [SInt 1; SStr "Ann"] [[SInt 2; SStr "Bob"]] [SInt 3]
            [[SInt 4; SStr "Dan"]] "" _ _).
  - repeat constructor.
  - simpl. lia.
Defined.

(** X12: a non-empty list of rows that all have as many values as the first
    is always shaped, without an exception, to one of the three
    dictionaries, and the total that the dictionary states is the
    number of rows. *)
Theorem uniform_rows_are_shaped
    (first : list scalar) (more : list (list scalar)) (query : string) :
  Forall (fun row => length row = length first) more ->
  exists shaped,
    transform_sql_to_viz_data (PList (map Tuple (first :: more))) query = Ok shaped
    /\ match shaped with
       | Categorical _ _ total _ => total = length (first :: more)
       | Numeric _ total => total = length (first :: more)
       | RowTable _ _ total_rows => total_rows = length (first :: more)
       | _ => False
       end.
Proof.
  intros H.
  assert (Hge : Forall (fun row => length first <= length row) more).
  { apply Forall_forall. intros row Hrow.
    pose proof (proj1 (Forall_forall _ _) H row Hrow) as E. cbv beta in E. lia. }
  destruct (Nat.eq_dec (length first) 1) as [E | Hne].
  - destruct first as [ | v [ | ? ?]]; try discriminate E.
    rewrite (first_row_shape v more query).
    + destruct v; eexists; (split; [reflexivity | reflexivity]).
    + simpl in Hge. exact Hge.
  - eexists. split.
    + rewrite transform_rows.
      destruct (Nat.eqb_spec (length first) 1) as [E | _]; [contradiction | ].
      rewrite (rows_comprehension (length first) (first :: more))
        by (constructor; [lia | exact Hge]).
      cbn [bind]. reflexivity.
    + cbn beta iota. rewrite length_map. reflexivity.
Qed.

(** X13: a failure of the database passes the shaper unchanged: the node
    turns it into the dictionary [{"error": ...}], and the shaper
    returns a dictionary as it is. *)
Theorem execution_failure_passes_the_shaper
    (db_run : string -> outcome pyvalue) (structure : QueryStructure)
    (sql : string) (e : exn) (query : string) :
  build_sql_from_structure structure = Ok sql ->
  db_run sql = Raise e ->
  (st <- build_and_execute_node db_run structure ;;
   transform_sql_to_viz_data (result st) query) =
  Ok (SameDict [("error", SStr ("SQL execution error: " ++ exn_str e))]).
Proof.
  intros Hsql Hrun. unfold build_and_execute_node, run_sql.
  rewrite Hsql. cbn [bind]. rewrite Hrun. reflexivity.
Qed.

Lemma execution_failure_passes_the_shaper_witness :
  (st <- build_and_execute_node no_such_table count_males ;;
   transform_sql_to_viz_data (result st) "plot the males") =
  Ok (SameDict [("error", SStr "SQL execution error: no such table: people")]).
Proof.
  exact (execution_failure_passes_the_shaper no_such_table count_males
           "SELECT COUNT(*) FROM people WHERE Sex = 'Male'"
           (Exn Exception "no such table: people") "plot the males"
           eq_refl eq_refl).
Defined.

(** * Properties of the workflow and the supervisor *)

Lemma workflow_from_reply {figure : Type} (c : Collaborators figure)
      user_query selected_table columns intent :
  workflow_reaches c user_query selected_table columns intent ->
  generate_and_execute_sql c user_query =
  validate_build_execute c selected_table columns intent.
Proof.
  intros (tables & reply & content & Ht & Hr & -> & Hc & Hs & Hj).
  unfold generate_and_execute_sql, fetch_tables_node, select_table_node,
    fetch_schema_node, generate_structure, validate_build_execute.
  rewrite Ht. cbn [bind]. rewrite Hr. cbn [bind]. rewrite Hc. cbn [bind].
  rewrite Hs. cbn [bind]. rewrite Hj. reflexivity.
Qed.

Lemma workflow_returns {figure : Type} (c : Collaborators figure) user_query r :
  generate_and_execute_sql c user_query = Ok r ->
  exists selected_table columns intent,
    workflow_reaches c user_query selected_table columns intent
    /\ validate_build_execute c selected_table columns intent = Ok r.
Proof.
  unfold generate_and_execute_sql, fetch_tables_node, select_table_node,
    fetch_schema_node, generate_structure.
  destruct (get_tables c) as [tables | ] eqn:Ht; cbn [bind]; [ | discriminate].
  destruct (llm_select_table c user_query (join ", " tables)) as [reply | ] eqn:Hr;
    cbn [bind]; [ | discriminate].
  destruct (get_table_columns c (strip c reply)) as [columns | ] eqn:Hc;
    cbn [bind]; [ | discriminate].
  destruct (llm_structure c user_query (strip c reply) (join ", " columns))
    as [content | ] eqn:Hs; cbn [bind]; [ | discriminate].
  destruct (json_loads c (clean_reply c content)) as [intent | msg] eqn:Hj;
    [ | discriminate].
  intros H. exists (strip c reply), columns, intent. split; [ | exact H].
  exists tables, reply, content. repeat split; assumption.
Qed.

(** X14: whenever the workflow returns, its answer is coherent: the
    structure it reports is the validated reply of the model, its
    table is the selected table, every column it names is a column
    that the schema inspector listed for that table, the SQL it
    reports is the compilation of that structure, and the result is
    not empty. *)
Theorem workflow_response_is_coherent
    {figure : Type} (c : Collaborators figure) (user_query : string)
    (r : SqlResponse) :
  generate_and_execute_sql c user_query = Ok r ->
  exists selected_table columns intent,
    workflow_reaches c user_query selected_table columns intent
    /\ generate_structure_node selected_table columns intent =
       Ok (response_structure r)
    /\ table (response_structure r) = Val selected_table
    /\ Forall (fun name => In name columns)
         (names_in_columns (response_structure r) ++
          names_in_where (response_structure r) ++
          nonempty_name_in_order_by (response_structure r))%list
    /\ build_sql_from_structure (response_structure r) = Ok (response_sql r)
    /\ truthy (response_result r) = true.
Proof.
  intros H. destruct (workflow_returns c user_query r H)
    as (sel & columns & intent & Hreach & Hrun).
  exists sel, columns, intent. split; [exact Hreach | ].
  unfold validate_build_execute in Hrun.
  destruct (generate_structure_node sel columns intent) as [s | ] eqn:Hs;
    cbn [bind] in Hrun; [ | discriminate].
  destruct (build_and_execute_node (db c) s) as [st | ] eqn:Hst;
    cbn [bind] in Hrun; [ | discriminate].
  injection Hrun as <-. cbn [response_structure response_sql response_result].
  split; [reflexivity | ].
  split; [rewrite (generate_structure_node_ok _ _ _ _ Hs); reflexivity | ].
  split; [exact (validated_names_known _ _ _ _ Hs) | ].
  split; [exact (node_sql_query _ _ _ Hst) | exact (node_result_truthy _ _ _ Hst)].
Qed.

(** X15: when the reply of the model names a column that the selected table
    does not have, the workflow raises the validator's error for the
    first such name, whatever the database would answer: no query is
    built for it. *)
Theorem unknown_column_stops_the_workflow
    {figure : Type} (c : Collaborators figure)
    (user_query selected_table : string) (columns : list string)
    (intent : QueryStructure) (ctx : context) (name : string) :
  workflow_reaches c user_query selected_table columns intent ->
  first_violation nonempty_name_in_order_by columns intent = Some (ctx, name) ->
  generate_and_execute_sql c user_query =
  Raise (column_not_found name (place ctx) columns).
Proof.
  intros Hreach Hv. rewrite (workflow_from_reply _ _ _ _ _ Hreach).
  unfold validate_build_execute. rewrite generate_structure_node_scan.
  unfold first_violation in Hv.
  destruct (find (unknown columns) (names_in_columns intent)).
  { injection Hv as <- <-. reflexivity. }
  destruct (find (unknown columns) (names_in_where intent)).
  { injection Hv as <- <-. reflexivity. }
  destruct (find (unknown columns) (nonempty_name_in_order_by intent));
    [ | discriminate].
  injection Hv as <- <-. reflexivity.
Qed.

Lemma sample_workflow_reaches database intent user_query :
  workflow_reaches (sample_collaborators database intent) user_query
    "people" people_columns intent.
Proof.
  exists ["people"], (" people" ++ nl), sample_reply.
  repeat split; reflexivity.
Defined.

Lemma workflow_response_is_coherent_witness :
  exists selected_table columns intent,
    workflow_reaches (sample_collaborators no_rows intent_count_males)
      "count the males" selected_table columns intent
    /\ generate_structure_node selected_table columns intent =
       Ok (normalized "people" intent_count_males)
    /\ table (normalized "people" intent_count_males) = Val selected_table
    /\ Forall (fun name => In name columns) ["Sex"]
    /\ build_sql_from_structure (normalized "people" intent_count_males) =
       Ok "SELECT COUNT(*) FROM people WHERE Sex = 'Male'"
    /\ truthy (PStr "Query returned no results.") = true.
Proof.
  exact (workflow_response_is_coherent
           (sample_collaborators no_rows intent_count_males) "count the males"
           (mkResponse "SELECT COUNT(*) FROM people WHERE Sex = 'Male'"
              (PStr "Query returned no results.")
              (normalized "people" intent_count_males))
           eq_refl).
Defined.

Lemma unknown_column_stops_the_workflow_witness :
  generate_and_execute_sql (sample_collaborators no_rows intent_gender)
    "count the males" =
  Raise (column_not_found "Gender" "WHERE clause" people_columns).
Proof.
  exact (unknown_column_stops_the_workflow
           (sample_collaborators no_rows intent_gender) "count the males"
           "people" people_columns intent_gender InWhere "Gender"
           (sample_workflow_reaches no_rows intent_gender "count the males")
           eq_refl).
Defined.

(** X16: on the SQL route a failure of the database is answered as an
    error that shows the attempted SQL and the message of the failure;
    nothing is raised. *)
Theorem supervisor_reports_execution_failure
    {figure : Type} (c : Collaborators figure)
    (user_query selected_table : string) (columns : list string)
    (intent s : QueryStructure) (sql : string) (e : exn) :
  any_in viz_keywords (lower c user_query) = false ->
  any_in sql_keywords (lower c user_query) = true ->
  workflow_reaches c user_query selected_table columns intent ->
  generate_structure_node selected_table columns intent = Ok s ->
  build_sql_from_structure s = Ok sql ->
  db c sql = Raise e ->
  supervisor c user_query =
  RouteError (Some sql) (SStr ("SQL execution error: " ++ exn_str e))
             "SQL execution failed".
Proof.
  intros Hviz Hsql Hreach Hs Hb Hdb. unfold supervisor.
  rewrite Hviz, Hsql, (workflow_from_reply _ _ _ _ _ Hreach).
  unfold validate_build_execute. rewrite Hs. cbn [bind].
  unfold build_and_execute_node, run_sql. rewrite Hb. cbn [bind].
  rewrite Hdb. reflexivity.
Qed.

Lemma supervisor_reports_execution_failure_witness :
  supervisor (sample_collaborators no_such_table intent_count_males)
    "Count the males" =
  RouteError (Some "SELECT COUNT(*) FROM people WHERE Sex = 'Male'")
             (SStr "SQL execution error: no such table: people")
             "SQL execution failed".
Proof.
  exact (supervisor_reports_execution_failure
           (sample_collaborators no_such_table intent_count_males)
           "Count the males" "people" people_columns intent_count_males
           (normalized "people" intent_count_males)
           "SELECT COUNT(*) FROM people WHERE Sex = 'Male'"
           (Exn Exception "no such table: people")
           eq_refl eq_refl
           (sample_workflow_reaches no_such_table intent_count_males
              "Count the males")
           eq_refl eq_refl eq_refl).
Defined.

(** X17: on the visualization route the same failure is not answered as an
    error: the dictionary [{"error": ...}] is described, handed to the
    code generator and plotted as the data, and the answer is the
    plot. *)
Theorem supervisor_plots_execution_failure
    {figure : Type} (c : Collaborators figure)
    (user_query selected_table : string) (columns : list string)
    (intent s : QueryStructure) (sql : string) (e : exn)
    (description code : string) (fig : figure) :
  any_in viz_keywords (lower c user_query) = true ->
  workflow_reaches c user_query selected_table columns intent ->
  generate_structure_node selected_table columns intent = Ok s ->
  build_sql_from_structure s = Ok sql ->
  db c sql = Raise e ->
  format_data_for_llm c
    (SameDict [("error", SStr ("SQL execution error: " ++ exn_str e))]) =
    Ok description ->
  generate_viz_code c user_query
    (SameDict [("error", SStr ("SQL execution error: " ++ exn_str e))])
    description = Ok code ->
  run_plot_code c code
    (SameDict [("error", SStr ("SQL execution error: " ++ exn_str e))]) = Ok fig ->
  supervisor c user_query = RouteViz fig code.
Proof.
  intros Hviz Hreach Hs Hb Hdb Hd Hg Hp. unfold supervisor.
  rewrite Hviz, (workflow_from_reply _ _ _ _ _ Hreach).
  unfold validate_build_execute. rewrite Hs. cbn [bind].
  unfold build_and_execute_node, run_sql. rewrite Hb. cbn [bind].
  rewrite Hdb. cbn [bind response_result result exn_str].
  change (transform_sql_to_viz_data
            (PDict [("error", SStr ("SQL execution error: " ++ exn_str e))])
            user_query)
    with (Ok (SameDict [("error", SStr ("SQL execution error: " ++ exn_str e))])).
  cbn [bind]. rewrite Hd. cbn [bind]. rewrite Hg. cbn [bind]. rewrite Hp.
  reflexivity.
Qed.

Lemma supervisor_plots_execution_failure_witness :
  supervisor (sample_collaborators no_such_table intent_count_males)
    "Plot the males" = RouteViz tt "plt.show()".
Proof.
  exact (supervisor_plots_execution_failure
           (sample_collaborators no_such_table intent_count_males)
           "Plot the males" "people" people_columns intent_count_males
           (normalized "people" intent_count_males)
           "SELECT COUNT(*) FROM people WHERE Sex = 'Male'"
           (Exn Exception "no such table: people")
           "Data type: dict" "plt.show()" tt
           eq_refl
           (sample_workflow_reaches no_such_table intent_count_males
              "Plot the males")
           eq_refl eq_refl eq_refl eq_refl eq_refl eq_refl).
Defined.

(** X18: an answer of the SQL route that is not an error shows the SQL
    compiled from the structure it shows, and rows that the executor
    returned for exactly this SQL; no key word of the visualization
    route occurs in the query. *)
Theorem supervisor_sql_answer_is_coherent
    {figure : Type} (c : Collaborators figure) (user_query : string)
    (sql : string) (rows : pyvalue) (structure : QueryStructure) :
  supervisor c user_query = RouteSql sql rows structure ->
  any_in viz_keywords (lower c user_query) = false
  /\ build_sql_from_structure structure = Ok sql
  /\ run_sql (db c) sql = Ok rows
  /\ (forall d, rows = PDict d -> dict_get "error" d = None).
Proof.
  unfold supervisor.
  destruct (any_in viz_keywords (lower c user_query)).
  { repeat match goal with
           | |- context [bind ?m _] => destruct m; cbn [bind]
           end; discriminate. }
  destruct (any_in sql_keywords (lower c user_query)); [ | discriminate].
  destruct (generate_and_execute_sql c user_query) as [r | e] eqn:Hr;
    [ | discriminate].
  intros H.
  assert (Hroute : RouteSql (figure := figure) (response_sql r) (response_result r)
                     (response_structure r) = RouteSql sql rows structure
                   /\ (forall d, response_result r = PDict d ->
                                 dict_get "error" d = None)).
  { destruct (response_result r) as [ | | | d | | ] eqn:Hres;
      try (split; [exact H | intros d' Hd'; discriminate Hd']).
    destruct (dict_get "error" d) eqn:Hd; [discriminate H | ].
    split; [exact H | ]. intros d' Hd'. injection Hd' as <-. exact Hd. }
  destruct Hroute as (Heq & Hnoerr). injection Heq as <- <- <-.
  split; [reflexivity | ].
  destruct (workflow_returns c user_query r Hr) as (sel & cols & intent & _ & Hrun).
  unfold validate_build_execute in Hrun.
  destruct (generate_structure_node sel cols intent) as [s | ]; cbn [bind] in Hrun;
    [ | discriminate].
  destruct (build_and_execute_node (db c) s) as [st | ] eqn:Hst;
    cbn [bind] in Hrun; [ | discriminate].
  injection Hrun as <-. cbn [response_sql response_result response_structure] in *.
  split; [exact (node_sql_query _ _ _ Hst) | ].
  split; [ | exact Hnoerr].
  unfold build_and_execute_node in Hst.
  destruct (build_sql_from_structure s) as [q | ]; cbn [bind] in Hst;
    [ | discriminate].
  destruct (run_sql (db c) q) as [v | e] eqn:Hq; injection Hst as <-;
    cbn [sql_query result] in *.
  - exact Hq.
  - exfalso. specialize (Hnoerr _ eq_refl). discriminate Hnoerr.
Qed.

Lemma supervisor_sql_answer_is_coherent_witness :
  any_in viz_keywords (ascii_lower "Count the males") = false
  /\ build_sql_from_structure (normalized "people" intent_count_males) =
     Ok "SELECT COUNT(*) FROM people WHERE Sex = 'Male'"
  /\ run_sql one_male "SELECT COUNT(*) FROM people WHERE Sex = 'Male'" =
     Ok (PList [Tuple [SInt 1]])
  /\ (forall d, PList [Tuple [SInt 1]] = PDict d -> dict_get "error" d = None).
Proof.
  exact (supervisor_sql_answer_is_coherent
           (sample_collaborators one_male intent_count_males) "Count the males"
           "SELECT COUNT(*) FROM people WHERE Sex = 'Male'"
           (PList [Tuple [SInt 1]])
           (normalized "people" intent_count_males) eq_refl).
Defined.

(** ** The cleaning of the model's reply *)

Section ReplaceFacts.

Lemma prefix_fence_iff (s : string) :
  prefix fence s = true <-> 3 <= leading_backquotes s.
Proof.
  unfold fence.
  destruct s as [ | a1 [ | a2 [ | a3 s]]]; cbn [prefix leading_backquotes].
  - split; [discriminate | lia].
  - destruct (ascii_dec "`" a1) as [<- | H1]; cbn [Ascii.eqb Bool.eqb];
      [split; [discriminate | lia] | ].
    destruct (Ascii.eqb_spec a1 "`"); split; try discriminate; try lia.
  - destruct (ascii_dec "`" a1) as [<- | H1].
    + destruct (ascii_dec "`" a2) as [<- | H2]; cbn [Ascii.eqb Bool.eqb];
        [split; [discriminate | lia] | ].
      destruct (Ascii.eqb_spec a2 "`"); split; try discriminate; try lia.
    + destruct (Ascii.eqb_spec a1 "`") as [E | _];
        [symmetry in E; contradiction | split; [discriminate | lia]].
  - destruct (ascii_dec "`" a1) as [<- | H1].
    + destruct (ascii_dec "`" a2) as [<- | H2].
      * destruct (ascii_dec "`" a3) as [<- | H3]; cbn [Ascii.eqb Bool.eqb].
        -- split; [intros _; lia | intros _; destruct s; reflexivity].
        -- destruct (Ascii.eqb_spec a3 "`") as [E | _];
             [symmetry in E; contradiction | split; [discriminate | lia]].
      * cbn [Ascii.eqb Bool.eqb].
        destruct (Ascii.eqb_spec a2 "`") as [E | _];
          [symmetry in E; contradiction | split; [discriminate | lia]].
    + destruct (Ascii.eqb_spec a1 "`") as [E | _];
        [symmetry in E; contradiction | split; [discriminate | lia]].
Qed.

Lemma replace_fence_step (a : ascii) (s : string) :
  replace fence "" (String a s) =
  if prefix fence (String a s)
  then match s with
       | String _ (String _ rest) => replace fence "" rest
       | _ => EmptyString
       end
  else String a (replace fence "" s).
Proof.
  unfold replace. cbn [replace_from].
  destruct (prefix fence (String a s)) eqn:Hp; [ | reflexivity].
  destruct s as [ | a2 [ | a3 rest]]; reflexivity.
Qed.

Lemma replace_fence_invariant : forall n s,
  String.length s <= n ->
  occurs fence (replace fence "" s) = false
  /\ (leading_backquotes s < 3 ->
      leading_backquotes (replace fence "" s) = leading_backquotes s).
Proof.
  induction n as [ | n IH]; intros s Hlen.
  - destruct s; [split; reflexivity | simpl in Hlen; lia].
  - destruct s as [ | a s]; [split; reflexivity | ].
    rewrite replace_fence_step.
    destruct (prefix fence (String a s)) eqn:Hp.
    + apply prefix_fence_iff in Hp.
      destruct s as [ | a2 [ | a3 rest]].
      * split; [reflexivity | intros; lia].
      * split; [reflexivity | intros; lia].
      * destruct (IH rest) as (Hocc & _); [simpl in Hlen |- *; lia | ].
        split; [exact Hocc | intros; lia].
    + assert (Hlead : leading_backquotes (String a s) < 3).
      { destruct (Nat.lt_ge_cases (leading_backquotes (String a s)) 3) as [H | H];
          [exact H | ].
        apply prefix_fence_iff in H. congruence. }
      destruct (IH s) as (Hocc & Hkeep); [simpl in Hlen; lia | ].
      assert (Hsame : leading_backquotes (String a (replace fence "" s)) =
                      leading_backquotes (String a s)).
      { cbn [leading_backquotes] in *.
        destruct (Ascii.eqb a "`"); [ | reflexivity].
        rewrite Hkeep by lia. reflexivity. }
      split; [ | intros _; exact Hsame].
      cbn [occurs]. rewrite Hocc, orb_false_r.
      destruct (prefix fence (String a (replace fence "" s))) eqn:Hq;
        [ | reflexivity].
      apply prefix_fence_iff in Hq. lia.
Qed.

Lemma replace_fence_free (s : string) : occurs fence (replace fence "" s) = false.
Proof.
  exact (proj1 (replace_fence_invariant (String.length s) s (le_n _))).
Qed.

Lemma prefix_append (w : string) : forall m b,
  prefix w m = true -> prefix w (m ++ b) = true.
Proof.
  induction w as [ | x w IH]; intros m b H; [destruct (m ++ b); reflexivity | ].
  destruct m as [ | y m]; [discriminate | ].
  cbn [prefix append] in *. destruct (ascii_dec x y); [ | discriminate].
  apply IH. exact H.
Qed.

Lemma occurs_append_r (w : string) : forall m b,
  occurs w m = true -> occurs w (m ++ b) = true.
Proof.
  induction m as [ | y m IH]; intros b H.
  - cbn [occurs] in H. rewrite orb_false_r in H.
    destruct w; [ | discriminate].
    destruct b; reflexivity.
  - cbn [occurs] in H. apply orb_true_iff in H.
    change (String y m ++ b) with (String y (m ++ b)). cbn [occurs].
    apply orb_true_iff. destruct H as [H | H].
    + left. exact (prefix_append w (String y m) b H).
    + right. apply IH. exact H.
Qed.

Lemma occurs_append_l (w : string) : forall a m,
  occurs w m = true -> occurs w (a ++ m) = true.
Proof.
  induction a as [ | x a IH]; intros m H; [exact H | ].
  change (String x a ++ m) with (String x (a ++ m)). cbn [occurs].
  apply orb_true_iff. right. apply IH. exact H.
Qed.

Lemma ascii_lstrip_suffix (s : string) : exists a, s = a ++ ascii_lstrip s.
Proof.
  induction s as [ | x s (a & IH)]; [exists EmptyString; reflexivity | ].
  cbn [ascii_lstrip]. destruct (ascii_space x).
  - exists (String x a). cbn [append]. rewrite <- IH. reflexivity.
  - exists EmptyString. reflexivity.
Qed.

Lemma ascii_rstrip_prefix (s : string) : exists b, s = ascii_rstrip s ++ b.
Proof.
  induction s as [ | x s (b & IH)]; [exists EmptyString; reflexivity | ].
  cbn [ascii_rstrip]. destruct (ascii_rstrip s) as [ | y r] eqn:E.
  - destruct (ascii_space x).
    + exists (String x s). reflexivity.
    + exists s. reflexivity.
  - exists b. cbn [append]. cbn [append] in IH. rewrite <- IH. reflexivity.
Qed.

Lemma ascii_strip_inside (s : string) : exists a b, s = a ++ ascii_strip s ++ b.
Proof.
  destruct (ascii_lstrip_suffix s) as (a & Ha).
  destruct (ascii_rstrip_prefix (ascii_lstrip s)) as (b & Hb).
  exists a, b. unfold ascii_strip. rewrite <- Hb. exact Ha.
Qed.

End ReplaceFacts.

(** X19: no markdown fence is left in the text that is handed to
    [json.loads], whatever the model replied and however many fences
    its reply had; [strip] is only taken to return a part of its
    argument. *)
Theorem cleaned_reply_has_no_fence
    {figure : Type} (c : Collaborators figure) (content : string) :
  (forall s, exists a b, s = a ++ strip c s ++ b) ->
  occurs fence (clean_reply c content) = false.
Proof.
  intros Hstrip. unfold clean_reply.
  set (r := replace "```json" "" (strip c content)).
  destruct (occurs fence (strip c (replace "```" "" r))) eqn:H; [ | reflexivity].
  destruct (Hstrip (replace "```" "" r)) as (a & b & E).
  pose proof (replace_fence_free r) as Hfree. unfold fence in Hfree at 2.
  rewrite E in Hfree.
  rewrite (occurs_append_l fence a _ (occurs_append_r fence _ b H)) in Hfree.
  discriminate Hfree.
Qed.

Lemma cleaned_reply_has_no_fence_witness :
  occurs fence
    (clean_reply (sample_collaborators no_rows intent_count_males)
       ("``` ```json" ++ sample_reply ++ "````")) = false.
Proof.
  exact (cleaned_reply_has_no_fence
           (sample_collaborators no_rows intent_count_males)
           ("``` ```json" ++ sample_reply ++ "````") ascii_strip_inside).
Defined.

Lemma uniform_rows_are_shaped_witness :
  exists shaped,
    transform_sql_to_viz_data
      (PList (map Tuple [[SStr "Ann"; SInt 30]; [SStr "Bob"; SInt 41]])) "" =
    Ok shaped
    /\ match shaped with
       | Categorical _ _ total _ => total = 2
       | Numeric _ total => total = 2
       | RowTable _ _ total_rows => total_rows = 2
       | _ => False
       end.
Proof.
  refine (uniform_rows_are_shaped [SStr "Ann"; SInt 30] [[SStr "Bob"; SInt 41]] "" _).
  repeat constructor.
Defined.

(** * The LIMIT clause *)

Section WordFacts.

(** A word and a character that does not occur in it. *)
Variable w : string.
Variable c : ascii.
Hypothesis w_nonempty : w <> EmptyString.
Hypothesis c_not_in_w : str_contains c w = false.





End WordFacts.

Section LimitWord.












End LimitWord.

Section CountQuery.





End CountQuery.



